(** * bowing-camera: the bowing-metrics engine

    A shallow embedding of [bow-metrics.js] (the [BowMetrics] module) and of
    the metric pipeline and the diagnostic report of [app.js].

    JavaScript numbers are kept abstract behind the class [JSNum]: the
    functions of the source are translated once, over any number type that
    offers the operations the source uses.  Two instances are given:
    - [float], the IEEE 754 binary64 numbers of the kernel, which is what a
      JavaScript engine computes with (NaN, infinities and signed zeros
      included); the definitions run on it with [vm_compute];
    - [R], the real numbers, the idealised arithmetic in which the numeric
      properties (sums of percentages, weighted averages, angle bounds) are
      proved.
    Properties that only depend on the control flow of the source are proved
    for every instance at once. *)

From Stdlib Require Import Reals Lra Lia ZArith QArith Qreals Floats Uint63.
From Stdlib Require Import String List Bool.
Import ListNotations.

Set Implicit Arguments.
Close Scope Q_scope.
Close Scope R_scope.

(** ** Numbers *)

Declare Scope js_scope.
Delimit Scope js_scope with js.

Class JSNum (T : Type) : Type := {
  lit : Q -> T;              (* a numeric literal of the source *)
  add : T -> T -> T;
  sub : T -> T -> T;
  mul : T -> T -> T;
  div : T -> T -> T;
  sqrt : T -> T;             (* Math.sqrt *)
  abs : T -> T;              (* Math.abs *)
  max : T -> T -> T;         (* Math.max *)
  min : T -> T -> T;         (* Math.min *)
  round : T -> T;            (* Math.round *)
  ltb : T -> T -> bool;      (* a < b *)
  leb : T -> T -> bool;      (* a <= b *)
  eqb : T -> T -> bool       (* a === b, both numbers *)
}.

(** [Math.acos] and [Math.PI], which only [angleBetween3] needs. *)
Class JSTrig (T : Type) `{JSNum T} : Type := {
  acos : T -> T;
  PI : T
}.
Arguments JSTrig T {_}.

Notation "# q" := (lit q%Q) (at level 1, format "# q") : js_scope.
Infix "+" := add : js_scope.
Infix "-" := sub : js_scope.
Infix "*" := mul : js_scope.
Infix "/" := div : js_scope.
Infix "<?" := ltb : js_scope.
Infix "<=?" := leb : js_scope.
Infix "=?" := eqb : js_scope.
Notation "a >? b" := (ltb b a) (at level 70, no associativity) : js_scope.
Notation "a >=? b" := (leb b a) (at level 70, no associativity) : js_scope.
Notation "a <>? b" := (negb (eqb a b)) (at level 70, no associativity) : js_scope.

(** [array.length] as a number. *)
Definition len {T} `{JSNum T} {A} (l : list A) : T :=
  lit (inject_Z (Z.of_nat (List.length l))).

(** [Math.sign]: 1, -1, or the argument itself (zero or NaN). *)
Definition sign {T} `{JSNum T} (x : T) : T :=
  (if #0 <? x then #1 else if x <? #0 then #(-1) else x)%js.

(** *** IEEE 754 binary64 *)

Module F64.

Definition of_Z (z : Z) : float :=
  match z with
  | Z0 => PrimFloat.zero
  | Zpos _ => PrimFloat.of_uint63 (Uint63.of_Z z)
  | Zneg p => PrimFloat.opp (PrimFloat.of_uint63 (Uint63.of_Z (Zpos p)))
  end.

(** A decimal literal denotes the binary64 number nearest to it, which is
    what the correctly rounded quotient of its numerator and denominator is
    (both are exact below 2^53). *)
Definition lit (q : Q) : float :=
  PrimFloat.div (of_Z (Qnum q)) (of_Z (Zpos (Qden q))).

Definition is_zero (x : float) : bool := PrimFloat.eqb x PrimFloat.zero.

(** [Math.max]: NaN if an argument is NaN; +0 is larger than -0. *)
Definition max (a b : float) : float :=
  if PrimFloat.is_nan a || PrimFloat.is_nan b then PrimFloat.nan
  else if PrimFloat.ltb a b then b
  else if PrimFloat.ltb b a then a
  else if is_zero a then PrimFloat.add a b
  else a.

(** [Math.min]: NaN if an argument is NaN; -0 is smaller than +0. *)
Definition min (a b : float) : float :=
  if PrimFloat.is_nan a || PrimFloat.is_nan b then PrimFloat.nan
  else if PrimFloat.ltb a b then a
  else if PrimFloat.ltb b a then b
  else if is_zero a
       then PrimFloat.opp (PrimFloat.add (PrimFloat.opp a) (PrimFloat.opp b))
  else a.

(** [Math.round]: the integer nearest to [x], ties towards +infinity,
    computed exactly on the mantissa and exponent of [x]; NaN and the
    infinities are returned unchanged, and a zero result keeps the sign
    of [x]. *)
Definition round (x : float) : float :=
  match Prim2SF x with
  | S754_finite s m e =>
      let n : Z := if s then Zneg m else Zpos m in
      let r : Z :=
        match e with
        | Zneg k => Z.div (2 * n + Z.pow 2 (Zpos k)) (Z.pow 2 (Zpos k + 1))
        | _ => n * Z.pow 2 e
        end%Z in
      if Z.eqb r 0
      then (if s then PrimFloat.neg_zero else PrimFloat.zero)
      else if Z.leb (Z.pow 2 53) (Z.abs r) then x
      else of_Z r
  | _ => x
  end.

End F64.

#[export] Instance float_JSNum : JSNum float := {|
  lit := F64.lit;
  add := PrimFloat.add;
  sub := PrimFloat.sub;
  mul := PrimFloat.mul;
  div := PrimFloat.div;
  sqrt := PrimFloat.sqrt;
  abs := PrimFloat.abs;
  max := F64.max;
  min := F64.min;
  round := F64.round;
  ltb := PrimFloat.ltb;
  leb := PrimFloat.leb;
  eqb := PrimFloat.eqb
|}.

(** *** Real numbers *)

Module Real.

Definition ltb (x y : R) : bool := if Rlt_dec x y then true else false.
Definition leb (x y : R) : bool := if Rle_dec x y then true else false.
Definition eqb (x y : R) : bool := if Req_dec_T x y then true else false.

(** The integer nearest to [x], ties towards +infinity: [floor (x + 1/2)]. *)
Definition round (x : R) : R := IZR (Int_part (x + / 2)%R).

End Real.

#[export] Instance R_JSNum : JSNum R := {|
  lit := Q2R;
  add := Rplus;
  sub := Rminus;
  mul := Rmult;
  div := Rdiv;
  sqrt := R_sqrt.sqrt;
  abs := Rabs;
  max := Rmax;
  min := Rmin;
  round := Real.round;
  ltb := Real.ltb;
  leb := Real.leb;
  eqb := Real.eqb
|}.

#[export] Instance R_JSTrig : JSTrig R := {|
  acos := Ratan.acos;
  PI := Rtrigo1.PI
|}.

(** ** bow-metrics.js *)

Inductive Status : Set := good | warn | bad.

Inductive Zone : Set := frog | middle | tip.

Definition Status_eqb (a b : Status) : bool :=
  match a, b with
  | good, good | warn, warn | bad, bad => true
  | _, _ => false
  end.

Module BowMetrics.

Section WithNumbers.

Context {T : Type} `{NT : JSNum T} `{TT : !JSTrig T}.
Local Open Scope string_scope.
Local Open Scope js_scope.

(** [{x, y}] *)
Record Point : Type := { px : T; py : T }.

(** [{x, y, t}], an entry of the wrist trail. *)
Record TrailSample : Type := { sx : T; sy : T; st : T }.

Definition samplePoint (p : TrailSample) : Point := {| px := sx p; py := sy p |}.

(** *** Utilities *)

Definition distance (a b : Point) : T :=
  let dx := px a - px b in
  let dy := py a - py b in
  sqrt (dx * dx + dy * dy).


Definition ema (prev : option T) (curr alpha : T) : T :=
  match prev with
  | None => curr
  | Some prev => prev + alpha * (curr - prev)
  end.

(** *** M1: straightness of the bow *)

Record Straightness : Type := {
  score : option T;
  curvature : option T;
  st_status : Status
}.

(** [{ score: null, status: 'good' }] *)
Definition noScore : Straightness :=
  {| score := None; curvature := None; st_status := good |}.

(** The state of the segmentation loop. *)
Record SegState : Type := {
  strokes : list (list TrailSample);
  currentStroke : list TrailSample;
  prevDx : T
}.

(** [if (currentStroke.length >= 8) strokes.push(currentStroke)] *)
Definition pushStroke (strokes : list (list TrailSample))
    (currentStroke : list TrailSample) : list (list TrailSample) :=
  if Nat.leb 8 (List.length currentStroke) then strokes ++ [currentStroke]
  else strokes.

(** One iteration of the loop, at [wristTrail[i - 1]] and [wristTrail[i]]. *)
Definition segStep (s : SegState) (prev cur : TrailSample) : SegState :=
  let dx := sx cur - sx prev in
  if abs dx <? #0.002 then
    {| strokes := strokes s;
       currentStroke := currentStroke s ++ [cur];
       prevDx := prevDx s |}
  else if (prevDx s <>? #0) && (sign dx <>? sign (prevDx s)) then
    {| strokes := pushStroke (strokes s) (currentStroke s);
       currentStroke := [cur];
       prevDx := dx |}
  else
    {| strokes := strokes s;
       currentStroke := currentStroke s ++ [cur];
       prevDx := dx |}.

Fixpoint segLoop (s : SegState) (prev : TrailSample)
    (rest : list TrailSample) : SegState :=
  match rest with
  | [] => s
  | cur :: rest' => segLoop (segStep s prev cur) cur rest'
  end.

(** The array [strokes] when the segmentation is over. *)
Definition segmentStrokes (wristTrail : list TrailSample)
    : list (list TrailSample) :=
  match wristTrail with
  | [] => []
  | first :: rest =>
      let s := segLoop {| strokes := []; currentStroke := [first];
                          prevDx := #0 |} first rest in
      pushStroke (strokes s) (currentStroke s)
  end.

(** [let acc = 0; for (const p of stroke) acc += f(p)] *)
Definition sumOver (f : TrailSample -> T) (stroke : list TrailSample) : T :=
  fold_left (fun acc p => acc + f p) stroke #0.

(** The least-squares fit and its root-mean-square error. *)
Definition fitRmse (stroke : list TrailSample) : T :=
  let n : T := len stroke in
  let sumX := sumOver sx stroke in
  let sumY := sumOver sy stroke in
  let sumXX := sumOver (fun p => sx p * sx p) stroke in
  let sumXY := sumOver (fun p => sx p * sy p) stroke in
  let denom := n * sumXX - sumX * sumX in
  if abs denom <? #1e-10 then
    let meanX := sumX / n in
    let sse := sumOver (fun p => let d := sx p - meanX in d * d) stroke in
    sqrt (sse / n)
  else
    let slope := (n * sumXY - sumX * sumY) / denom in
    let intercept := (sumY - slope * sumX) / n in
    let sse := sumOver (fun p =>
                 let predicted := slope * sx p + intercept in
                 let d := sy p - predicted in
                 d * d) stroke in
    sqrt (sse / n).

(** [distance(stroke[0], stroke[n - 1])]; a stroke is never empty. *)
Definition strokeLength (stroke : list TrailSample) : T :=
  match stroke with
  | [] => #0
  | first :: _ => distance (samplePoint first)
                           (samplePoint (List.last stroke first))
  end.

(** The part of [computeBowStraightness] after the stroke is chosen. *)
Definition scoreStroke (stroke : list TrailSample) : Straightness :=
  let rmse := fitRmse stroke in
  let strokeLen := strokeLength stroke in
  if strokeLen <? #0.03 then noScore
  else
    let curvature := (rmse / strokeLen) * #100 in
    let score := max #0 (min #100 (#100 - curvature * #5)) in
    let status :=
      if curvature >? #5 then bad
      else if curvature >? #2 then warn
      else good in
    {| score := Some (round score); curvature := Some curvature;
       st_status := status |}.

Definition computeBowStraightness (wristTrail : list TrailSample)
    : Straightness :=
  if Nat.ltb (List.length wristTrail) 10 then noScore
  else
    let strokes := segmentStrokes wristTrail in
    match strokes with
    | [] => noScore
    | s0 :: _ => scoreStroke (List.last strokes s0)
    end.

(** *** M2: distribution of the bow *)

Record BowZone : Type := { zone : Zone; extensionRatio : T }.

Definition computeBowZone (shoulder elbow wrist : Point) : BowZone :=
  let upperArm := distance shoulder elbow in
  let forearm := distance elbow wrist in
  let armLength := upperArm + forearm in
  if armLength <? #0.01 then {| zone := middle; extensionRatio := #0.5 |}
  else
    let wristShoulderDist := distance shoulder wrist in
    let extensionRatio := wristShoulderDist / armLength in
    let zone :=
      if extensionRatio <? #0.55 then frog
      else if extensionRatio <? #0.78 then middle
      else tip in
    {| zone := zone;
       extensionRatio := round (extensionRatio * #100) / #100 |}.

(** [{tip, middle, frog}], the counters. *)
Record BowDistribution : Type := { c_tip : T; c_middle : T; c_frog : T }.

(** [{tip, middle, frog, label}], the percentages. *)
Record Distribution : Type := {
  d_tip : T; d_middle : T; d_frog : T; d_label : string
}.

Definition computeDistributionPercent (dist : BowDistribution)
    : Distribution :=
  let total := c_tip dist + c_middle dist + c_frog dist in
  if total =? #0 then
    {| d_tip := #33; d_middle := #34; d_frog := #33; d_label := "--" |}
  else
    let tipPct := round (c_tip dist / total * #100) in
    let frogPct := round (c_frog dist / total * #100) in
    let midPct := #100 - tipPct - frogPct in
    let max3 := max (max tipPct midPct) frogPct in
    let label :=
      if max3 >=? #50 then
        if tipPct =? max3 then "先弓寄り"
        else if frogPct =? max3 then "元弓寄り"
        else "中弓中心"
      else if max3 - min (min tipPct midPct) frogPct <? #15 then "全弓"
      else "均等" in
    {| d_tip := tipPct; d_middle := midPct; d_frog := frogPct;
       d_label := label |}.

(** *** M3: height of the elbow *)

Record ElbowHeight : Type := {
  relativeHeight : T; el_status : Status; el_label : string
}.

(** [bodyScale], from [rHip] or the fallback. *)
Definition bodyScaleOf (shoulder : Point) (rHip : option Point) : T :=
  let bodyScale :=
    match rHip with
    | Some rHip => abs (py rHip - py shoulder)
    | None => #0.3
    end in
  if bodyScale <? #0.01 then #0.3 else bodyScale.

Definition computeElbowHeight (shoulder elbow : Point)
    (rHip lHip : option Point) : ElbowHeight :=
  let shoulderElbowDy := py elbow - py shoulder in
  let bodyScale := bodyScaleOf shoulder rHip in
  let relativeHeight := shoulderElbowDy / bodyScale in
  let '(status, label) :=
    if relativeHeight <? #(-0.15) then (warn, "高すぎ")
    else if relativeHeight >? #0.5 then (bad, "低すぎ")
    else if relativeHeight >? #0.35 then (warn, "やや低い")
    else (good, "OK") in
  {| relativeHeight := round (relativeHeight * #100) / #100;
     el_status := status; el_label := label |}.

(** *** M4: tension of the shoulders *)

Record ShoulderTension : Type := {
  tension : T; sh_status : Status; sh_label : string; currentDist : T
}.

(** [Math.abs(rDist - lDist) / Math.max(rDist, lDist)] *)
Definition asymmetryOf (rShoulder rEar lShoulder lEar : Point) : T :=
  let rDist := distance rShoulder rEar in
  let lDist := distance lShoulder lEar in
  abs (rDist - lDist) / max rDist lDist.

Definition computeShoulderTension (rShoulder rEar lShoulder lEar : Point)
    (baseDist : option T) : ShoulderTension :=
  let rDist := distance rShoulder rEar in
  let lDist := distance lShoulder lEar in
  let avgDist := (rDist + lDist) / #2 in
  let '(tension, status, label) :=
    match baseDist with
    | Some baseDist =>
        if baseDist >? #0 then
          let change := (baseDist - avgDist) / baseDist in
          let tension := max #0 (round (change * #100)) in
          if change >? #0.25 then (tension, bad, "力んでいます")
          else if change >? #0.15 then (tension, warn, "少し力み")
          else (tension, good, "リラックス")
        else (#0, good, "リラックス")
    | None => (#0, good, "リラックス")
    end in
  let asymmetry := asymmetryOf rShoulder rEar lShoulder lEar in
  let '(status, label) :=
    if asymmetry >? #0.2 then
      if Status_eqb status good then (warn, "左右差あり") else (status, label)
    else (status, label) in
  {| tension := tension; sh_status := status; sh_label := label;
     currentDist := avgDist |}.

(** *** Advice *)

(** The record given to [generateAdvice]; any field may be missing. *)
Record Metrics : Type := {
  straightness : option Straightness;
  distribution : option Distribution;
  bowZone : option BowZone;
  elbow : option ElbowHeight;
  shoulder : option ShoulderTension
}.

Definition adviceStraightBad : string :=
  "弓が曲がっています。弓先まで弦と直角を保つよう意識してみてください".
Definition adviceStraightWarn : string :=
  "弓がやや曲がっています。手首の柔軟性を意識してみましょう".
Definition adviceElbowLow : string :=
  "肘が下がりすぎです。弦の高さに合わせて肘を上げましょう".
Definition adviceElbowHigh : string :=
  "肘が高すぎます。力まず自然な高さに下ろしましょう".
Definition adviceElbowRaise : string :=
  "肘をもう少し上げてみましょう".
Definition adviceShoulderBad : string :=
  "肩に力が入っています！一度息を吐いて肩を落としましょう".
Definition adviceShoulderAsym : string :=
  "肩の高さに左右差があります。鏡で確認してみましょう".
Definition adviceShoulderWarn : string :=
  "肩が少し上がっています。リラックスを意識してください".
Definition adviceFullBow : string :=
  "いい感じ！全弓をバランスよく使えています".
Definition adviceGood : string :=
  "フォームは良好です。この調子で続けましょう".

(** [issues.push(msg)] *)
Definition push (issues : list string) (msg : string) : list string :=
  (issues ++ [msg])%list.

Definition generateAdvice (metrics : Metrics) : string :=
  let issues : list string := [] in
  let issues :=
    match straightness metrics with
    | Some s =>
        if Status_eqb (st_status s) bad then push issues adviceStraightBad
        else if Status_eqb (st_status s) warn
        then push issues adviceStraightWarn
        else issues
    | None => issues
    end in
  let issues :=
    match elbow metrics with
    | Some e =>
        if Status_eqb (el_status e) bad then push issues adviceElbowLow
        else if String.eqb (el_label e) "高すぎ"
        then push issues adviceElbowHigh
        else if Status_eqb (el_status e) warn
        then push issues adviceElbowRaise
        else issues
    | None => issues
    end in
  let issues :=
    match shoulder metrics with
    | Some s =>
        if Status_eqb (sh_status s) bad then push issues adviceShoulderBad
        else if Status_eqb (sh_status s) warn then
          if String.eqb (sh_label s) "左右差あり"
          then push issues adviceShoulderAsym
          else push issues adviceShoulderWarn
        else issues
    | None => issues
    end in
  match issues with
  | [] =>
      match distribution metrics with
      | Some d => if String.eqb (d_label d) "全弓" then adviceFullBow
                  else adviceGood
      | None => adviceGood
      end
  | first :: _ => first
  end.

End WithNumbers.

Arguments Point T : clear implicits.
Arguments TrailSample T : clear implicits.
Arguments Straightness T : clear implicits.
Arguments BowZone T : clear implicits.
Arguments BowDistribution T : clear implicits.
Arguments Distribution T : clear implicits.
Arguments ElbowHeight T : clear implicits.
Arguments ShoulderTension T : clear implicits.
Arguments Metrics T : clear implicits.
Arguments SegState T : clear implicits.

End BowMetrics.

(** ** app.js *)

Module App.

Import BowMetrics.

Section WithNumbers.

Context {T : Type} `{NT : JSNum T}.
Local Open Scope string_scope.
Local Open Scope js_scope.

(** The entries of the landmark array [lm] that [processFrame] reads,
    named as the indices of [LM]. *)
Record Landmarks : Type := {
  LEFT_EAR : Point T;
  RIGHT_EAR : Point T;
  LEFT_SHOULDER : Point T;
  RIGHT_SHOULDER : Point T;
  RIGHT_ELBOW : Point T;
  RIGHT_WRIST : Point T;
  RIGHT_HIP : Point T
}.

(** An entry of [state.diagnoseLog]. *)
Record LogEntry : Type := {
  l_straightness : option T;
  l_straightnessStatus : Status;
  l_elbowHeight : T;
  l_elbowStatus : Status;
  l_elbowLabel : string;
  l_shoulderTension : T;
  l_shoulderStatus : Status;
  l_shoulderLabel : string;
  l_bowZone : Zone;
  l_extensionRatio : T
}.

(** The fields of [state] that the metric pipeline reads and writes. *)
Record State : Type := {
  wristTrail : list (TrailSample T);
  bowDistribution : BowDistribution T;
  bowDistResetTime : T;
  baseShoulderEarDist : option T;
  lastShoulderEarDist : option T;
  smoothStraightness : option T;
  smoothElbowHeight : option T;
  currentMetrics : Metrics T;
  diagnosing : bool;
  diagnoseLog : list LogEntry
}.

(** [counts[zone]++] *)
Definition bump (z : Zone) (counts : BowDistribution T) : BowDistribution T :=
  match z with
  | tip => {| c_tip := c_tip counts + #1; c_middle := c_middle counts;
              c_frog := c_frog counts |}
  | middle => {| c_tip := c_tip counts; c_middle := c_middle counts + #1;
                 c_frog := c_frog counts |}
  | frog => {| c_tip := c_tip counts; c_middle := c_middle counts;
               c_frog := c_frog counts + #1 |}
  end.

Definition zeroCounts : BowDistribution T :=
  {| c_tip := #0; c_middle := #0; c_frog := #0 |}.

(** The status of a straightness score, as [processFrame] and the report
    derive it. *)
Definition scoreStatus (s : option T) : Status :=
  match s with
  | Some s => if s >=? #85 then good else if s >=? #65 then warn else bad
  | None => good
  end.

(** The [shoulder] field of [state.currentMetrics]. *)
Definition shoulderMetric (baseShoulderEarDist : option T)
    (shoulderTension : ShoulderTension T) : ShoulderTension T :=
  match baseShoulderEarDist with
  | None => {| tension := #0; sh_status := good;
               sh_label := "キャリブレーション待ち";
               currentDist := currentDist shoulderTension |}
  | Some _ => shoulderTension
  end.

Definition processFrame (lm : Landmarks) (ts : T) (state : State) : State :=
  let rShoulder := RIGHT_SHOULDER lm in
  let rElbow := RIGHT_ELBOW lm in
  let rWrist := RIGHT_WRIST lm in
  let lShoulder := LEFT_SHOULDER lm in
  let rEar := RIGHT_EAR lm in
  let lEar := LEFT_EAR lm in
  let rHip := RIGHT_HIP lm in
  let trail := (wristTrail state
                ++ [{| sx := px rWrist; sy := py rWrist; st := ts |}])%list in
  let trail := if Nat.ltb 60 (List.length trail) then List.tl trail
               else trail in
  let straightness := computeBowStraightness trail in
  let smoothS :=
    match score straightness with
    | Some sc => Some (ema (smoothStraightness state) sc #0.15)
    | None => smoothStraightness state
    end in
  let bowZone := computeBowZone rShoulder rElbow rWrist in
  let counts := bump (zone bowZone) (bowDistribution state) in
  let '(counts, resetTime) :=
    if ts - bowDistResetTime state >? #10000
    then (bump (zone bowZone) zeroCounts, ts)
    else (counts, bowDistResetTime state) in
  let distribution := computeDistributionPercent counts in
  let elbowHeight := computeElbowHeight rShoulder rElbow (Some rHip) None in
  let smoothE := Some (ema (smoothElbowHeight state)
                           (relativeHeight elbowHeight) #0.1) in
  let shoulderTension :=
    computeShoulderTension rShoulder rEar lShoulder lEar
                           (baseShoulderEarDist state) in
  let smoothedScore := smoothS in
  let straightnessStatus := scoreStatus smoothedScore in
  let smoothedElbow :=
    match smoothE with
    | Some e => round (e * #100) / #100
    | None => relativeHeight elbowHeight
    end in
  let log :=
    if diagnosing state then
      (diagnoseLog state ++ [{|
         l_straightness := option_map round smoothedScore;
         l_straightnessStatus := straightnessStatus;
         l_elbowHeight := smoothedElbow;
         l_elbowStatus := el_status elbowHeight;
         l_elbowLabel := el_label elbowHeight;
         l_shoulderTension := tension shoulderTension;
         l_shoulderStatus := sh_status shoulderTension;
         l_shoulderLabel := sh_label shoulderTension;
         l_bowZone := zone bowZone;
         l_extensionRatio := extensionRatio bowZone |}])%list
    else diagnoseLog state in
  {| wristTrail := trail;
     bowDistribution := counts;
     bowDistResetTime := resetTime;
     baseShoulderEarDist := baseShoulderEarDist state;
     lastShoulderEarDist := Some (currentDist shoulderTension);
     smoothStraightness := smoothS;
     smoothElbowHeight := smoothE;
     currentMetrics := {|
       straightness := Some {| score := option_map round smoothedScore;
                               curvature := None;
                               st_status := straightnessStatus |};
       distribution := Some distribution;
       bowZone := Some bowZone;
       elbow := Some {| relativeHeight := smoothedElbow;
                        el_status := el_status elbowHeight;
                        el_label := el_label elbowHeight |};
       shoulder := Some (shoulderMetric (baseShoulderEarDist state)
                                        shoulderTension) |};
     diagnosing := diagnosing state;
     diagnoseLog := log |}.

(** [calibrateShoulder]: the last shoulder-ear distance becomes the
    baseline, if there is one and it is positive (a positive number is
    truthy, so the first conjunct of the source's guard adds nothing for
    a number). *)
Definition calibrateShoulder (state : State) : State :=
  match lastShoulderEarDist state with
  | Some d =>
      if d >? #0 then
        {| wristTrail := wristTrail state;
           bowDistribution := bowDistribution state;
           bowDistResetTime := bowDistResetTime state;
           baseShoulderEarDist := Some d;
           lastShoulderEarDist := lastShoulderEarDist state;
           smoothStraightness := smoothStraightness state;
           smoothElbowHeight := smoothElbowHeight state;
           currentMetrics := currentMetrics state;
           diagnosing := diagnosing state;
           diagnoseLog := diagnoseLog state |}
      else state
  | None => state
  end.

(** *** The diagnostic report *)

(** The values [showDiagnoseReport] computes and prints. *)
Record Report : Type := {
  overall : T;
  overallStatus : Status;
  overallComment : string;
  avgStraightness : option T;
  straightStatus : Status;
  tipPct : T;
  midPct : T;
  frogPct : T;
  distStatus : Status;
  distLabel : string;
  avgElbow : T;
  elbowStatus : Status;
  elbowLabel : string;
  avgTension : T;
  maxTension : T;
  shoulderStatus : Status
}.

(** What the modal shows: the message that no pose was detected, or the
    report. *)
Inductive DiagnoseView : Type :=
| NoPoseDetected
| Shown (r : Report).

(** [xs.reduce((a, b) => a + b, 0)] *)
Definition sum (xs : list T) : T := fold_left add xs #0.

(** [Math.max(...xs)] of a non-empty array. *)
Definition maxOf (xs : list T) : T :=
  match xs with
  | [] => #0
  | x :: xs' => fold_left max xs' x
  end.

(** [log.filter(l => l.straightness !== null).map(l => l.straightness)] *)
Fixpoint validStraightnessOf (log : list LogEntry) : list T :=
  match log with
  | [] => []
  | l :: log' =>
      match l_straightness l with
      | Some s => s :: validStraightnessOf log'
      | None => validStraightnessOf log'
      end
  end.

(** The entries [{ s, w }] of [scores]. *)
Definition scoresOf (avgStraightness : option T)
    (elbowStatus shoulderStatus distStatus : Status) : list (T * T) :=
  let scores : list (T * T) := [] in
  let scores :=
    match avgStraightness with
    | Some a => (scores ++ [(a, #3)])%list
    | None => scores
    end in
  let scores :=
    (scores ++ [(match elbowStatus with
                 | good => #90 | warn => #60 | bad => #30 end, #2)])%list in
  let scores :=
    (scores ++ [(match shoulderStatus with
                 | good => #95 | warn => #60 | bad => #30 end, #2)])%list in
  (scores ++ [(match distStatus with
               | good => #90 | warn => #65 | bad => #35 end, #1)])%list.

Definition showDiagnoseReport (log : list LogEntry) : DiagnoseView :=
  match log with
  | [] => NoPoseDetected
  | _ :: _ =>
    let validStraightness := validStraightnessOf log in
    let avgStraightness :=
      if Nat.ltb 0 (List.length validStraightness)
      then Some (round (sum validStraightness / len validStraightness))
      else None in
    let avgElbow :=
      round (fold_left (fun a l => a + l_elbowHeight l) log #0
             / len log * #100) / #100 in
    let validTension :=
      List.map (fun l => l_shoulderTension l)
               (List.filter (fun l => l_shoulderTension l >? #0) log) in
    let avgTension :=
      if Nat.ltb 0 (List.length validTension)
      then round (sum validTension / len validTension)
      else #0 in
    let maxTension :=
      if Nat.ltb 0 (List.length validTension) then maxOf validTension
      else #0 in
    let zoneCounts :=
      fold_left (fun counts l => bump (l_bowZone l) counts) log zeroCounts in
    let totalZone :=
      c_tip zoneCounts + c_middle zoneCounts + c_frog zoneCounts in
    let tipPct := round (c_tip zoneCounts / totalZone * #100) in
    let frogPct := round (c_frog zoneCounts / totalZone * #100) in
    let midPct := #100 - tipPct - frogPct in
    let straightStatus := scoreStatus avgStraightness in
    let elbowStatus :=
      if avgElbow <? #(-0.15) then warn
      else if avgElbow >? #0.5 then bad
      else if avgElbow >? #0.35 then warn
      else good in
    let shoulderStatus :=
      if maxTension >? #25 then bad
      else if avgTension >? #15 then warn
      else good in
    let maxZone := max (max tipPct midPct) frogPct in
    let minZone := min (min tipPct midPct) frogPct in
    let distStatus :=
      if maxZone - minZone <? #20 then good
      else if maxZone - minZone <? #35 then warn
      else bad in
    let scores := scoresOf avgStraightness elbowStatus shoulderStatus
                           distStatus in
    let totalW := fold_left (fun a s => a + snd s) scores #0 in
    let overall :=
      round (fold_left (fun a s => a + fst s * snd s) scores #0 / totalW) in
    let overallStatus :=
      if overall >=? #80 then good
      else if overall >=? #60 then warn
      else bad in
    let overallComment :=
      if overall >=? #85
      then "素晴らしいフォームです！この調子で練習を続けましょう。"
      else if overall >=? #70
      then "基本は良好です。下のポイントを意識するとさらに良くなります。"
      else if overall >=? #50
      then "いくつか改善ポイントがあります。ゆっくり練習して修正しましょう。"
      else "フォームに課題があります。鏡を見ながら1つずつ直していきましょう。" in
    let distLabel :=
      if maxZone >=? #50 then
        if tipPct =? maxZone then "先弓寄り"
        else if frogPct =? maxZone then "元弓寄り"
        else "中弓中心"
      else "全弓" in
    let elbowLabel :=
      if avgElbow <? #(-0.15) then "高すぎ"
      else if avgElbow >? #0.5 then "低すぎ"
      else if avgElbow >? #0.35 then "やや低い"
      else "適正" in
    Shown {|
      overall := overall;
      overallStatus := overallStatus;
      overallComment := overallComment;
      avgStraightness := avgStraightness;
      straightStatus := straightStatus;
      tipPct := tipPct;
      midPct := midPct;
      frogPct := frogPct;
      distStatus := distStatus;
      distLabel := distLabel;
      avgElbow := avgElbow;
      elbowStatus := elbowStatus;
      elbowLabel := elbowLabel;
      avgTension := avgTension;
      maxTension := maxTension;
      shoulderStatus := shoulderStatus |}
  end.

End WithNumbers.

Arguments Landmarks T : clear implicits.
Arguments LogEntry T : clear implicits.
Arguments State T : clear implicits.
Arguments Report T : clear implicits.
Arguments DiagnoseView T : clear implicits.
Arguments NoPoseDetected {T}.

End App.

(** * Vocabulary of the properties *)

Import BowMetrics App.

Section Vocabulary.

Context {T : Type} `{NT : JSNum T}.
Local Open Scope string_scope.
Local Open Scope js_scope.

(** A stroke the segmentation keeps: at least 8 samples. *)
Definition isLong (s : list (TrailSample T)) : bool :=
  Nat.leb 8 (List.length s).

Definition longStrokes (ss : list (list (TrailSample T))) : Prop :=
  Forall (fun s => 8 <= List.length s)%nat ss.

(** The segmentation without the length filter: every stroke the loop
    closes, and the pending one, in order. *)
Definition Spec_segStepAll (s : SegState T) (prev cur : TrailSample T)
    : SegState T :=
  let dx := sx cur - sx prev in
  if abs dx <? #0.002 then
    {| strokes := strokes s;
       currentStroke := currentStroke s ++ [cur];
       prevDx := prevDx s |}
  else if (prevDx s <>? #0) && (sign dx <>? sign (prevDx s)) then
    {| strokes := strokes s ++ [currentStroke s];
       currentStroke := [cur];
       prevDx := dx |}
  else
    {| strokes := strokes s;
       currentStroke := currentStroke s ++ [cur];
       prevDx := dx |}.

Fixpoint Spec_segLoopAll (s : SegState T) (prev : TrailSample T)
    (rest : list (TrailSample T)) : SegState T :=
  match rest with
  | [] => s
  | cur :: rest' => Spec_segLoopAll (Spec_segStepAll s prev cur) cur rest'
  end.

Definition Spec_allStrokes (wristTrail : list (TrailSample T))
    : list (list (TrailSample T)) :=
  match wristTrail with
  | [] => []
  | first :: rest =>
      let s := Spec_segLoopAll {| strokes := []; currentStroke := [first];
                                  prevDx := #0 |} first rest in
      strokes s ++ [currentStroke s]
  end.

(** The loop of the source and the loop without the filter, side by side. *)
Definition segRel (s sAll : SegState T) : Prop :=
  strokes s = filter isLong (strokes sAll)
  /\ currentStroke s = currentStroke sAll
  /\ prevDx s = prevDx sAll.

(** The stroke [computeBowStraightness] evaluates, if there is one:
    [strokes[strokes.length - 1]]. *)
Definition evaluatedStroke (wristTrail : list (TrailSample T))
    : option (list (TrailSample T)) :=
  match segmentStrokes wristTrail with
  | [] => None
  | s0 :: ss => Some (List.last (s0 :: ss) s0)
  end.

(** No calibration baseline: [null], or a number that is not positive. *)
Definition noBaseline (baseDist : option T) : Prop :=
  match baseDist with
  | None => True
  | Some b => (b >? #0) = false
  end.

(** The baseline the application stores: [null] or a positive number. *)
Definition baselineSet (state : State T) : Prop :=
  match baseShoulderEarDist state with
  | None => True
  | Some b => (b >? #0) = true
  end.

(** The message a metric contributes to the advice, if it has an issue. *)
Definition straightnessIssue (s : option (Straightness T)) : option string :=
  match s with
  | Some s =>
      match st_status s with
      | bad => Some adviceStraightBad
      | warn => Some adviceStraightWarn
      | good => None
      end
  | None => None
  end.

Definition elbowIssue (e : option (ElbowHeight T)) : option string :=
  match e with
  | Some e =>
      match el_status e with
      | bad => Some adviceElbowLow
      | warn => if String.eqb (el_label e) "高すぎ" then Some adviceElbowHigh
                else Some adviceElbowRaise
      | good => if String.eqb (el_label e) "高すぎ" then Some adviceElbowHigh
                else None
      end
  | None => None
  end.

Definition shoulderIssue (s : option (ShoulderTension T)) : option string :=
  match s with
  | Some s =>
      match sh_status s with
      | bad => Some adviceShoulderBad
      | warn => if String.eqb (sh_label s) "左右差あり"
                then Some adviceShoulderAsym else Some adviceShoulderWarn
      | good => None
      end
  | None => None
  end.

(** The message when no metric has an issue. *)
Definition positiveAdvice (d : option (Distribution T)) : string :=
  match d with
  | Some d => if String.eqb (d_label d) "全弓" then adviceFullBow
              else adviceGood
  | None => adviceGood
  end.

(** The first of the issues, in the order given. *)
Fixpoint firstIssue (issues : list (option string)) : option string :=
  match issues with
  | [] => None
  | Some msg :: _ => Some msg
  | None :: rest => firstIssue rest
  end.

End Vocabulary.

Section RealVocabulary.

Local Open Scope R_scope.




(** The score of a channel of the report, from its status. *)
Definition channelScore (g w b : R) (s : Status) : R :=
  match s with good => g | warn => w | bad => b end.

End RealVocabulary.

(** Concrete inputs, on binary64 numbers unless said otherwise. *)
Module Samples.

Local Open Scope string_scope.
Local Open Scope js_scope.

Definition pt (x y : Q) : Point float := {| px := #x; py := #y |}.

(** Ten wrist samples, one every 0.01 along x, at height [f i]. *)
Definition sampleAt (f : Z -> Q) (i : Z) : TrailSample float :=
  {| sx := lit (Qmake i 100); sy := lit (f i);
     st := lit (inject_Z (i * 33)) |}.

Definition indices : list Z := [0; 1; 2; 3; 4; 5; 6; 7; 8; 9]%Z.

(** A straight horizontal stroke. *)
Definition straightTrail : list (TrailSample float) :=
  List.map (sampleAt (fun _ => 0.5%Q)) indices.

(** A stroke bent into an arc, 0.02 high in the middle. *)
Definition bowedTrail : list (TrailSample float) :=
  List.map (sampleAt (fun i => Qmake (500 + i * (9 - i)) 1000)) indices.

(** The right ear 0.2 above the right shoulder, the left ear 0.1 above the
    left one. *)
Definition rShoulder : Point float := pt 0.4 0.5.
Definition rEar : Point float := pt 0.4 0.3.
Definition lShoulder : Point float := pt 0.6 0.5.
Definition lEar : Point float := pt 0.6 0.4.

(** Counters whose percentages are 45, 35 and 20. *)
Definition unevenCounts : BowDistribution float :=
  {| c_tip := #45; c_middle := #35; c_frog := #20 |}.

(** All the counter records with entries below [n]. *)
Definition countersBelow (n : nat) : list (BowDistribution float) :=
  let ks := List.map (fun k => F64.of_Z (Z.of_nat k)) (List.seq 0 n) in
  List.flat_map (fun a =>
    List.flat_map (fun b =>
      List.map (fun c => {| c_tip := a; c_middle := b; c_frog := c |}) ks)
      ks) ks.

(** The percentages of a counter record add up to 100, or the total of the
    counters is 0. *)
Definition sumsTo100 (dist : BowDistribution float) : bool :=
  let r := computeDistributionPercent dist in
  (c_tip dist + c_middle dist + c_frog dist =? #0)
  || (d_tip r + d_middle r + d_frog r =? #100).

(** A record in which straightness, elbow and shoulder are all [good]. *)
Definition allGood (d : option (Distribution float)) : Metrics float :=
  {| straightness := Some {| score := Some #95; curvature := None;
                             st_status := good |};
     distribution := d;
     bowZone := Some {| zone := middle; extensionRatio := #0.6 |};
     elbow := Some {| relativeHeight := #0.2; el_status := good;
                      el_label := "OK" |};
     shoulder := Some {| tension := #0; sh_status := good;
                         sh_label := "リラックス"; currentDist := #0.15 |} |}.


(** Two entries of a diagnostic log, over the reals. *)
Definition entryGood : LogEntry R :=
  {| l_straightness := Some 92%R; l_straightnessStatus := good;
     l_elbowHeight := 0.2%R; l_elbowStatus := good; l_elbowLabel := "OK";
     l_shoulderTension := 0%R; l_shoulderStatus := good;
     l_shoulderLabel := "リラックス";
     l_bowZone := middle; l_extensionRatio := 0.6%R |}.

Definition entryTense : LogEntry R :=
  {| l_straightness := None; l_straightnessStatus := good;
     l_elbowHeight := 0.6%R; l_elbowStatus := bad; l_elbowLabel := "低すぎ";
     l_shoulderTension := 30%R; l_shoulderStatus := bad;
     l_shoulderLabel := "力んでいます";
     l_bowZone := tip; l_extensionRatio := 0.9%R |}.

(** The same two entries on binary64 numbers. *)
Definition entryGoodF : LogEntry float :=
  {| l_straightness := Some #92; l_straightnessStatus := good;
     l_elbowHeight := #0.2; l_elbowStatus := good; l_elbowLabel := "OK";
     l_shoulderTension := #0; l_shoulderStatus := good;
     l_shoulderLabel := "リラックス";
     l_bowZone := middle; l_extensionRatio := #0.6 |}.

Definition entryTenseF : LogEntry float :=
  {| l_straightness := None; l_straightnessStatus := good;
     l_elbowHeight := #0.6; l_elbowStatus := bad; l_elbowLabel := "低すぎ";
     l_shoulderTension := #30; l_shoulderStatus := bad;
     l_shoulderLabel := "力んでいます";
     l_bowZone := tip; l_extensionRatio := #0.9 |}.

End Samples.

(** Unfolds the operations of the source at the real numbers. *)
Ltac at_reals :=
  cbn [lit add sub mul div sqrt abs max min round ltb leb eqb R_JSNum
       acos PI R_JSTrig] in *;
  unfold Q2R in *; cbn [Qnum Qden] in *.


(** * Session control and drawing of app.js *)

Module Session.

Section WithNumbers.

Context {T : Type} `{NT : JSNum T}.
Local Open Scope string_scope.
Local Open Scope js_scope.

(** What one animation-frame callback observes: whether the landmarker
    and the video are ready, [video.currentTime], [performance.now()] and
    [result.landmarks]. *)
Record Frame : Type := {
  ready : bool;
  videoTime : T;
  now : T;
  landmarks : list (Landmarks T)
}.

(** The variables of app.js besides the metric fields of [state]:
    [state.isRunning], [state.diagnoseStartTime], the interval behind
    [state.diagnoseTimerId] with the [remaining] it counts down (no
    interval when [None]), the module variables of the detection loop,
    and what the diagnose modal shows ([None] while it is hidden). *)
Record Globals : Type := {
  state : State T;
  isRunning : bool;
  diagnoseStartTime : T;
  diagnoseTimer : option Z;
  lastVideoTime : T;
  frameCount : T;
  fpsTime : T;
  currentFps : T;
  modal : option (DiagnoseView T)
}.

Definition withState (g : Globals) (s : State T) : Globals :=
  {| state := s; isRunning := isRunning g;
     diagnoseStartTime := diagnoseStartTime g;
     diagnoseTimer := diagnoseTimer g;
     lastVideoTime := lastVideoTime g; frameCount := frameCount g;
     fpsTime := fpsTime g; currentFps := currentFps g; modal := modal g |}.

Definition withRunning (g : Globals) (b : bool) : Globals :=
  {| state := state g; isRunning := b;
     diagnoseStartTime := diagnoseStartTime g;
     diagnoseTimer := diagnoseTimer g;
     lastVideoTime := lastVideoTime g; frameCount := frameCount g;
     fpsTime := fpsTime g; currentFps := currentFps g; modal := modal g |}.

Definition withTimer (g : Globals) (t : option Z) : Globals :=
  {| state := state g; isRunning := isRunning g;
     diagnoseStartTime := diagnoseStartTime g;
     diagnoseTimer := t;
     lastVideoTime := lastVideoTime g; frameCount := frameCount g;
     fpsTime := fpsTime g; currentFps := currentFps g; modal := modal g |}.

Definition withModal (g : Globals) (m : option (DiagnoseView T)) : Globals :=
  {| state := state g; isRunning := isRunning g;
     diagnoseStartTime := diagnoseStartTime g;
     diagnoseTimer := diagnoseTimer g;
     lastVideoTime := lastVideoTime g; frameCount := frameCount g;
     fpsTime := fpsTime g; currentFps := currentFps g; modal := m |}.

(** [state.diagnosing = d; state.diagnoseLog = log] *)
Definition withDiagnose (s : State T) (d : bool) (log : list (LogEntry T))
    : State T :=
  {| wristTrail := wristTrail s;
     bowDistribution := bowDistribution s;
     bowDistResetTime := bowDistResetTime s;
     baseShoulderEarDist := baseShoulderEarDist s;
     lastShoulderEarDist := lastShoulderEarDist s;
     smoothStraightness := smoothStraightness s;
     smoothElbowHeight := smoothElbowHeight s;
     currentMetrics := currentMetrics s;
     diagnosing := d;
     diagnoseLog := log |}.

(** One call of [detectLoop], without the request for the next one and
    without the drawing. *)
Definition detectLoop (f : Frame) (g : Globals) : Globals :=
  if negb (isRunning g) then g
  else if negb (ready f) then g
  else
    let t := videoTime f in
    if t =? lastVideoTime g then g
    else
      let ts := now f in
      let frameCount1 := frameCount g + #1 in
      let '(currentFps1, frameCount2, fpsTime1) :=
        if ts - fpsTime g >=? #1000 then (frameCount1, #0, ts)
        else (currentFps g, frameCount1, fpsTime g) in
      let state1 :=
        match landmarks f with
        | lm :: _ => processFrame lm ts (state g)
        | [] => state g
        end in
      {| state := state1; isRunning := isRunning g;
         diagnoseStartTime := diagnoseStartTime g;
         diagnoseTimer := diagnoseTimer g;
         lastVideoTime := t; frameCount := frameCount2;
         fpsTime := fpsTime1; currentFps := currentFps1;
         modal := modal g |}.

(** [start]: [ok] says that the landmarker and the camera came up (the
    [catch] branch leaves everything as it was); [now0] is
    [performance.now()] and [f] is what the first call of [detectLoop]
    observes. *)
Definition start (ok : bool) (now0 : T) (f : Frame) (g : Globals) : Globals :=
  if ok then
    let s := state g in
    let s1 :=
      {| wristTrail := [];
         bowDistribution := zeroCounts;
         bowDistResetTime := now0;
         baseShoulderEarDist := None;
         lastShoulderEarDist := lastShoulderEarDist s;
         smoothStraightness := smoothStraightness s;
         smoothElbowHeight := smoothElbowHeight s;
         currentMetrics := currentMetrics s;
         diagnosing := diagnosing s;
         diagnoseLog := diagnoseLog s |} in
    detectLoop f (withRunning (withState g s1) true)
  else g.

Definition stop (g : Globals) : Globals := withRunning g false.

Definition toggleRunning (ok : bool) (now0 : T) (f : Frame) (g : Globals)
    : Globals :=
  if isRunning g then stop g else start ok now0 f g.

(** The calibration button. *)
Definition calibrate (g : Globals) : Globals :=
  withState g (calibrateShoulder (state g)).

Definition DIAGNOSE_DURATION : Z := 15.

Definition cancelDiagnose (g : Globals) : Globals :=
  let s := state g in
  withTimer (withState g (withDiagnose s false (diagnoseLog s))) None.

Definition finishDiagnose (g : Globals) : Globals :=
  let g1 := cancelDiagnose g in
  withModal g1 (Some (showDiagnoseReport (diagnoseLog (state g1)))).

(** [startDiagnose]: the arguments of [start] for the case that the
    camera is not running yet, and [now1], the time the capture starts.
    [toggleDiagnose] calls it while no capture is going on, so the new
    interval is the only one. *)
Definition startDiagnose (ok : bool) (now0 : T) (f : Frame) (now1 : T)
    (g : Globals) : Globals :=
  let g1 := if isRunning g then g else start ok now0 f g in
  if negb (isRunning g1) then g1
  else
    {| state := withDiagnose (state g1) true [];
       isRunning := isRunning g1;
       diagnoseStartTime := now1;
       diagnoseTimer := Some DIAGNOSE_DURATION;
       lastVideoTime := lastVideoTime g1; frameCount := frameCount g1;
       fpsTime := fpsTime g1; currentFps := currentFps g1;
       modal := modal g1 |}.

Definition toggleDiagnose (ok : bool) (now0 : T) (f : Frame) (now1 : T)
    (g : Globals) : Globals :=
  if diagnosing (state g) then cancelDiagnose g
  else startDiagnose ok now0 f now1 g.

(** The callback of the interval, once a second while it is set. *)
Definition diagnoseTick (g : Globals) : Globals :=
  match diagnoseTimer g with
  | None => g
  | Some remaining =>
      let remaining := (remaining - 1)%Z in
      if (remaining <=? 0)%Z then finishDiagnose g
      else withTimer g (Some remaining)
  end.

(** The close button of the modal. *)
Definition closeModal (g : Globals) : Globals := withModal g None.

(** *** drawBowTrail *)

(** One stroke of the canvas: from, to, colour, opacity and width. *)
Record Segment : Type := {
  seg_from : T * T;
  seg_to : T * T;
  seg_rgb : Z * Z * Z;
  seg_alpha : T;
  seg_width : T
}.

(** The segment ending at [trail[i]]. *)
Definition trailSegment (w h : T) (n : nat) (straightStatus : Status)
    (i : nat) (prev cur : TrailSample T) : Segment :=
  let age := lit (inject_Z (Z.of_nat n - Z.of_nat i))
             / lit (inject_Z (Z.of_nat n)) in
  let alpha := #0.8 * (#1 - age * #0.8) in
  let lineW := #3 * (#1 - age * #0.6) in
  let rgb :=
    match straightStatus with
    | good => (46, 204, 113)%Z
    | warn => (241, 196, 15)%Z
    | bad => (231, 76, 60)%Z
    end in
  {| seg_from := (sx prev * w, sy prev * h);
     seg_to := (sx cur * w, sy cur * h);
     seg_rgb := rgb; seg_alpha := alpha; seg_width := lineW |}.

(** The loop over [i = 1 .. trail.length - 1]. *)
Fixpoint trailLoop (w h : T) (n : nat) (straightStatus : Status) (i : nat)
    (prev : TrailSample T) (rest : list (TrailSample T)) : list Segment :=
  match rest with
  | [] => []
  | cur :: rest' =>
      trailSegment w h n straightStatus i prev cur
      :: trailLoop w h n straightStatus (S i) cur rest'
  end.

(** The strokes [drawBowTrail] puts on the canvas, in order. *)
Definition drawBowTrail (w h : T) (s : State T) : list Segment :=
  let trail := wristTrail s in
  if Nat.ltb (List.length trail) 2 then []
  else
    let straightStatus :=
      match straightness (currentMetrics s) with
      | Some st => st_status st
      | None => good
      end in
    match trail with
    | [] => []
    | first :: rest =>
        trailLoop w h (List.length trail) straightStatus 1 first rest
    end.

End WithNumbers.

Arguments Frame T : clear implicits.
Arguments Globals T : clear implicits.
Arguments Segment T : clear implicits.

End Session.

(** * Vocabulary of the further properties *)

Section MoreRealVocabulary.

Local Open Scope R_scope.


End MoreRealVocabulary.

Section MoreVocabulary.

Context {T : Type} `{NT : JSNum T}.
Local Open Scope js_scope.

(** The horizontal steps between the consecutive samples of a stroke. *)
Fixpoint steps (l : list (TrailSample T)) : list T :=
  match l with
  | a :: (b :: _) as l' => (sx b - sx a) :: steps l'
  | _ => []
  end.


End MoreVocabulary.

Section MoreRealVocabulary2.

Local Open Scope R_scope.

(** A step that counts for the direction: at least 0.002 wide. *)
Definition rightward (dx : R) : Prop := Rabs dx < 0.002 \/ 0 < dx.
Definition leftward (dx : R) : Prop := Rabs dx < 0.002 \/ dx < 0.

(** All the steps of a stroke that count go the same way. *)
Definition oneDirection (stroke : list (TrailSample R)) : Prop :=
  Forall rightward (steps stroke) \/ Forall leftward (steps stroke).

(** The steps of the current stroke agree with [prevDx]. *)
Definition followsDx (prevDx dx : R) : Prop :=
  Rabs dx < 0.002 \/ (0 < dx /\ 0 < prevDx) \/ (dx < 0 /\ prevDx < 0).

(** The invariant of the segmentation loop. *)
Definition segInv (s : SegState R) (prev : TrailSample R) : Prop :=
  Forall oneDirection (strokes s)
  /\ (exists l, currentStroke s = l ++ [prev])
  /\ Forall (followsDx (prevDx s)) (steps (currentStroke s)).

End MoreRealVocabulary2.

Section MoreRealVocabulary3.

Local Open Scope R_scope.



(** The sum of [f] over the samples. *)
Definition total (f : TrailSample R -> R) (l : list (TrailSample R)) : R :=
  fold_right Rplus 0 (List.map f l).

End MoreRealVocabulary3.


Section MoreRealVocabulary4.

Local Open Scope R_scope.



End MoreRealVocabulary4.

Section PipelineVocabulary.

Context {T : Type} `{NT : JSNum T}.
Local Open Scope js_scope.

(** The frames of a run, one after the other: landmarks and timestamp. *)
Definition processFrames (frames : list (Landmarks T * T)) (state : State T)
    : State T :=
  fold_left (fun s f => processFrame (fst f) (snd f) s) frames state.

(** The wrist sample of a frame. *)
Definition wristSample (lm : Landmarks T) (ts : T) : TrailSample T :=
  {| sx := px (RIGHT_WRIST lm); sy := py (RIGHT_WRIST lm); st := ts |}.

(** The advice on the screen after a frame. *)
Definition adviceShown (state : State T) : string :=
  generateAdvice (currentMetrics state).

End PipelineVocabulary.

Section PipelineRealVocabulary.

Local Open Scope R_scope.

Definition countsTotal (c : BowDistribution R) : R :=
  c_tip c + c_middle c + c_frog c.


End PipelineRealVocabulary.

Section SessionVocabulary.

Context {T : Type} `{NT : JSNum T}.

(** What can happen while the application runs: an animation frame, a
    second of the countdown, or the calibration button. *)
Inductive Event : Type :=
| EvLoop (f : Session.Frame T)
| EvTick
| EvCalibrate.

Definition step (g : Session.Globals T) (ev : Event) : Session.Globals T :=
  match ev with
  | EvLoop f => Session.detectLoop f g
  | EvTick => Session.diagnoseTick g
  | EvCalibrate => Session.calibrate g
  end.

Definition run (evs : list Event) (g : Session.Globals T)
    : Session.Globals T :=
  fold_left step evs g.

(** The seconds counted in a list of events. *)
Fixpoint ticks (evs : list Event) : Z :=
  match evs with
  | [] => 0
  | EvTick :: evs' => 1 + ticks evs'
  | _ :: evs' => ticks evs'
  end.

(** The animation frames in a list of events. *)
Fixpoint loops (evs : list Event) : nat :=
  match evs with
  | [] => 0
  | EvLoop _ :: evs' => S (loops evs')
  | _ :: evs' => loops evs'
  end.

(** No capture is going on. *)
Definition idle (g : Session.Globals T) : Prop :=
  diagnosing (Session.state g) = false /\ Session.diagnoseTimer g = None.

(** A capture is going on, with [r] seconds left. *)
Definition capturing (r : Z) (g : Session.Globals T) : Prop :=
  diagnosing (Session.state g) = true
  /\ Session.diagnoseTimer g = Some r /\ (1 <= r)%Z.

End SessionVocabulary.

Section ReportVocabulary.

Context {T : Type} `{NT : JSNum T}.
Local Open Scope js_scope.

(** [log.filter(l => l.shoulderTension > 0).map(l => l.shoulderTension)] *)
Definition validTensionOf (log : list (LogEntry T)) : list T :=
  List.map (fun l => l_shoulderTension l)
           (List.filter (fun l => l_shoulderTension l >? #0) log).

(** [zoneCounts] after the loop over the log. *)
Definition zoneCountsOf (log : list (LogEntry T)) : BowDistribution T :=
  fold_left (fun counts l => bump (l_bowZone l) counts) log zeroCounts.


End ReportVocabulary.

Section InitialValues.

Context {T : Type} `{NT : JSNum T}.
Local Open Scope js_scope.

(** The metric fields of [state] as app.js declares it. *)
Definition initialState : State T :=
  {| wristTrail := [];
     bowDistribution := zeroCounts;
     bowDistResetTime := #0;
     baseShoulderEarDist := None;
     lastShoulderEarDist := None;
     smoothStraightness := None;
     smoothElbowHeight := None;
     currentMetrics := {| straightness := None; distribution := None;
                          bowZone := None; elbow := None;
                          shoulder := None |};
     diagnosing := false;
     diagnoseLog := [] |}.

(** The variables of app.js as it declares them. *)
Definition initialGlobals : Session.Globals T :=
  {| Session.state := initialState;
     Session.isRunning := false;
     Session.diagnoseStartTime := #0;
     Session.diagnoseTimer := None;
     Session.lastVideoTime := #(-1);
     Session.frameCount := #0;
     Session.fpsTime := #0;
     Session.currentFps := #0;
     Session.modal := None |}.

End InitialValues.

Section DrawingVocabulary.

Local Open Scope R_scope.

(** Each number is below the next one. *)
Fixpoint ascending (l : list R) : Prop :=
  match l with
  | a :: (b :: _) as l' => a < b /\ ascending l'
  | _ => True
  end.

(** The opacity and the width of the segment ending at sample [i] of [n]. *)
Definition alphaAt (n i : nat) : R :=
  0.8 * (1 - (INR n - INR i) / INR n * 0.8).

Definition widthAt (n i : nat) : R :=
  3 * (1 - (INR n - INR i) / INR n * 0.6).

End DrawingVocabulary.

(** Concrete inputs over the real numbers. *)
Module RealSamples.

Local Open Scope R_scope.



(** A pose laid along the x axis: the right ear 0.2 and the left ear 0.1
    from their shoulders. *)
Definition pose : Landmarks R :=
  {| LEFT_EAR := {| px := 0.7; py := 0 |};
     RIGHT_EAR := {| px := 0.2; py := 0 |};
     LEFT_SHOULDER := {| px := 0.6; py := 0 |};
     RIGHT_SHOULDER := {| px := 0.4; py := 0 |};
     RIGHT_ELBOW := {| px := 0.5; py := 0 |};
     RIGHT_WRIST := {| px := 0.45; py := 0 |};
     RIGHT_HIP := {| px := 0.4; py := 0 |} |}.

(** The camera runs, nothing else has happened yet. *)
Definition running : Session.Globals R :=
  Session.withRunning initialGlobals true.

Definition frame (t : R) : Session.Frame R :=
  {| Session.ready := true; Session.videoTime := t; Session.now := t * 1000;
     Session.landmarks := [pose] |}.

End RealSamples.

Module FloatSamples.

Local Open Scope js_scope.

(** A player whose right wrist is at [(x, 0.5)]; the ears 0.2 and 0.1
    above the shoulders. *)
Definition pose (x : Q) : Landmarks float :=
  {| LEFT_EAR := Samples.lEar;
     RIGHT_EAR := Samples.rEar;
     LEFT_SHOULDER := Samples.lShoulder;
     RIGHT_SHOULDER := Samples.rShoulder;
     RIGHT_ELBOW := Samples.pt 0.3 0.6;
     RIGHT_WRIST := Samples.pt x 0.5;
     RIGHT_HIP := Samples.pt 0.4 0.9 |}.

(** The [i]th animation frame, 33 ms after the one before, the wrist 0.01
    further to the right. *)
Definition frame (i : Z) : Session.Frame float :=
  {| Session.ready := true;
     Session.videoTime := lit (Qmake (i * 33) 1000);
     Session.now := lit (inject_Z (i * 33));
     Session.landmarks := [pose (Qmake (20 + i) 100)] |}.

(** Twelve frames and the calibration button, then a capture of ten
    more frames and its 15 seconds. *)
Definition session : Session.Globals float :=
  let g := run (List.map (fun i => EvLoop (frame i)) Samples.indices
                ++ [EvLoop (frame 10); EvLoop (frame 11); EvCalibrate])
               (Session.withRunning initialGlobals true) in
  let g0 := Session.startDiagnose true #400 (frame 12) #400 g in
  run (List.map (fun i => EvLoop (frame (13 + i))) Samples.indices
       ++ repeat EvTick 15) g0.

End FloatSamples.
Unset Implicit Arguments.

(** * Properties *)


(** ** Properties of the control flow, for every number type *)

Section Generic.

Context {T : Type} `{NT : JSNum T}.
Local Open Scope string_scope.
Local Open Scope js_scope.

(** *** Segmentation *)

Lemma pushStroke_long (ss : list (list (TrailSample T))) cur :
  longStrokes ss -> longStrokes (pushStroke ss cur).
Proof.
  intros Hss. unfold pushStroke.
  destruct (Nat.leb 8 (List.length cur)) eqn:E; [|exact Hss].
  apply Forall_app. split; [exact Hss|].
  constructor; [|constructor]. now apply Nat.leb_le.
Qed.

Lemma segStep_long (s : SegState T) prev cur :
  longStrokes (strokes s) -> longStrokes (strokes (segStep s prev cur)).
Proof.
  intros Hs. unfold segStep.
  destruct (abs (sx cur - sx prev) <? #0.002); [exact Hs|].
  destruct ((prevDx s <>? #0) && (sign (sx cur - sx prev) <>? sign (prevDx s)));
    [|exact Hs].
  cbn [strokes]. now apply pushStroke_long.
Qed.

Lemma segLoop_long rest : forall (s : SegState T) prev,
  longStrokes (strokes s) -> longStrokes (strokes (segLoop s prev rest)).
Proof.
  induction rest as [|cur rest IH]; intros s prev Hs; cbn [segLoop].
  - exact Hs.
  - apply IH. now apply segStep_long.
Qed.

Lemma segmentStrokes_long (wristTrail : list (TrailSample T)) :
  longStrokes (segmentStrokes wristTrail).
Proof.
  destruct wristTrail as [|first rest]; cbn [segmentStrokes].
  - constructor.
  - apply pushStroke_long, segLoop_long. constructor.
Qed.

Lemma pushStroke_filter (ss : list (list (TrailSample T))) cur :
  pushStroke (filter isLong ss) cur = filter isLong (ss ++ [cur]).
Proof.
  rewrite filter_app. unfold pushStroke. cbn [filter]. unfold isLong.
  destruct (Nat.leb 8 (List.length cur)); [reflexivity|].
  now rewrite app_nil_r.
Qed.

Lemma segStep_rel (s sAll : SegState T) prev cur :
  segRel s sAll -> segRel (segStep s prev cur) (Spec_segStepAll sAll prev cur).
Proof.
  intros (Hs & Hc & Hd). unfold segStep, Spec_segStepAll.
  rewrite Hd, Hc.
  destruct (abs (sx cur - sx prev) <? #0.002).
  - repeat split; cbn; assumption || reflexivity.
  - destruct ((prevDx sAll <>? #0)
              && (sign (sx cur - sx prev) <>? sign (prevDx sAll))).
    + repeat split; cbn; try reflexivity.
      rewrite Hs. apply pushStroke_filter.
    + repeat split; cbn; assumption || reflexivity.
Qed.

Lemma segLoop_rel rest : forall (s sAll : SegState T) prev,
  segRel s sAll ->
  segRel (segLoop s prev rest) (Spec_segLoopAll sAll prev rest).
Proof.
  induction rest as [|cur rest IH]; intros s sAll prev H; cbn.
  - exact H.
  - apply IH. now apply segStep_rel.
Qed.

Lemma segmentStrokes_filter (wristTrail : list (TrailSample T)) :
  segmentStrokes wristTrail = filter isLong (Spec_allStrokes wristTrail).
Proof.
  destruct wristTrail as [|first rest]; [reflexivity|].
  cbn [segmentStrokes Spec_allStrokes].
  pose proof (@segLoop_rel rest
    {| strokes := []; currentStroke := [first]; prevDx := #0 |}
    {| strokes := []; currentStroke := [first]; prevDx := #0 |} first) as H.
  destruct H as (Hs & Hc & _); [repeat split|].
  rewrite Hs, Hc. apply pushStroke_filter.
Qed.

Lemma filter_nil_none {A} (p : A -> bool) (l : list A) :
  (forall a, In a l -> p a = false) -> filter p l = [].
Proof.
  induction l as [|a l IH]; intros H; cbn; [reflexivity|].
  rewrite (H a (or_introl eq_refl)). apply IH.
  intros b Hb. apply H. now right.
Qed.

Lemma last_in {A} (l : list A) (d : A) : l <> [] -> In (List.last l d) l.
Proof.
  induction l as [|a l IH]; intros H; [congruence|].
  destruct l as [|b l]; [now left|].
  right. apply IH. discriminate.
Qed.

Lemma evaluatedStroke_long (wristTrail stroke : list (TrailSample T)) :
  evaluatedStroke wristTrail = Some stroke -> (8 <= List.length stroke)%nat.
Proof.
  unfold evaluatedStroke. intros H.
  pose proof (segmentStrokes_long wristTrail) as HL.
  destruct (segmentStrokes wristTrail) as [|s0 ss]; [discriminate|].
  assert (E : stroke = List.last (s0 :: ss) s0) by congruence.
  unfold longStrokes in HL. rewrite Forall_forall in HL.
  rewrite E. apply HL, last_in. discriminate.
Qed.

(** C3. A wrist trail with fewer than 10 samples gets no score and status
    [good]; so does a trail in which no stroke, closed or pending, has at
    least 8 samples.  The strokes that are kept are exactly those of at
    least 8 samples. *)
Theorem computeBowStraightness_insufficient
    (wristTrail : list (TrailSample T)) :
  ((List.length wristTrail < 10)%nat ->
     computeBowStraightness wristTrail = noScore)
  /\ ((forall s, In s (Spec_allStrokes wristTrail) ->
         (List.length s < 8)%nat) ->
      computeBowStraightness wristTrail = noScore)
  /\ segmentStrokes wristTrail = filter isLong (Spec_allStrokes wristTrail)
  /\ score (T := T) noScore = None /\ st_status (T := T) noScore = good.
Proof.
  split; [|split; [|split; [|split; reflexivity]]].
  - intros H. unfold computeBowStraightness.
    apply Nat.ltb_lt in H. now rewrite H.
  - intros H. unfold computeBowStraightness.
    destruct (Nat.ltb (List.length wristTrail) 10); [reflexivity|].
    rewrite segmentStrokes_filter, filter_nil_none; [reflexivity|].
    intros s Hs. unfold isLong. apply Nat.leb_gt. now apply H.
  - apply segmentStrokes_filter.
Qed.

(** C4. The stroke that is evaluated has at least 8 samples; when its
    first-to-last length is below 0.03 there is no score and the status is
    [good]; otherwise the curvature is [(rmse / length) * 100], the score
    is [Math.round] of [100 - curvature * 5] clamped to [0, 100], and the
    status is [bad] above 5, [warn] above 2, [good] otherwise. *)
Theorem computeBowStraightness_scored
    (wristTrail stroke : list (TrailSample T)) :
  (10 <= List.length wristTrail)%nat ->
  evaluatedStroke wristTrail = Some stroke ->
  let r := computeBowStraightness wristTrail in
  let strokeLen := strokeLength stroke in
  let c := fitRmse stroke / strokeLen * #100 in
  (8 <= List.length stroke)%nat
  /\ (exists first rest, stroke = first :: rest /\
        strokeLen = distance (samplePoint first)
                             (samplePoint (List.last stroke first)))
  /\ ((strokeLen <? #0.03) = true -> r = noScore)
  /\ ((strokeLen <? #0.03) = false ->
        curvature r = Some c
        /\ score r = Some (round (max #0 (min #100 (#100 - c * #5))))
        /\ ((c >? #5) = true -> st_status r = bad)
        /\ ((c >? #5) = false -> (c >? #2) = true -> st_status r = warn)
        /\ ((c >? #5) = false -> (c >? #2) = false -> st_status r = good)).
Proof.
  intros Hlen Hev r strokeLen c.
  pose proof (evaluatedStroke_long _ _ Hev) as Hlong.
  assert (Hr : r = scoreStroke stroke).
  { subst r. unfold computeBowStraightness.
    apply Nat.ltb_ge in Hlen. rewrite Hlen.
    unfold evaluatedStroke in Hev.
    destruct (segmentStrokes wristTrail) as [|s0 ss]; [discriminate|].
    now injection Hev as <-. }
  split; [exact Hlong|]. split.
  - destruct stroke as [|first rest]; [cbn in Hlong; lia|].
    exists first, rest. split; reflexivity.
  - rewrite Hr. unfold scoreStroke. fold strokeLen. fold c. split.
    + intros ->. reflexivity.
    + intros ->. cbn [curvature score st_status].
      split; [reflexivity|]. split; [reflexivity|].
      split; [intros ->; reflexivity|].
      split; intros -> ->; reflexivity.
Qed.

(** *** Shoulder tension, the empty log, the elbow *)

(** C1, as the code has it.  Without a baseline the evaluator reports
    tension 0; the status is [good] with the label of a relaxed shoulder
    unless the left/right asymmetry exceeds 0.2, and then it is [warn] with
    the asymmetry label.  The record [processFrame] stores in
    [currentMetrics] replaces that result by tension 0, [good] and the
    calibration-pending label whenever the stored baseline is [null]. *)
Theorem computeShoulderTension_no_baseline
    (rShoulder rEar lShoulder lEar : Point T) (baseDist : option T) :
  noBaseline baseDist ->
  let r := computeShoulderTension rShoulder rEar lShoulder lEar baseDist in
  let asymmetry := asymmetryOf rShoulder rEar lShoulder lEar in
  tension r = #0
  /\ ((asymmetry >? #0.2) = false ->
        sh_status r = good /\ sh_label r = "リラックス")
  /\ ((asymmetry >? #0.2) = true ->
        sh_status r = warn /\ sh_label r = "左右差あり")
  /\ (forall (lm : Landmarks T) (ts : T) (state : State T),
        baseShoulderEarDist state = None ->
        shoulder (currentMetrics (processFrame lm ts state))
        = Some {| tension := #0; sh_status := good;
                  sh_label := "キャリブレーション待ち";
                  currentDist :=
                    currentDist (computeShoulderTension
                                   (RIGHT_SHOULDER lm) (RIGHT_EAR lm)
                                   (LEFT_SHOULDER lm) (LEFT_EAR lm) None) |}).
Proof.
  intros Hb r asymmetry.
  assert (Hr : r = let '(status, label) :=
                     if asymmetry >? #0.2 then (warn, "左右差あり")
                     else (good, "リラックス") in
                   {| tension := #0; sh_status := status; sh_label := label;
                      currentDist := (distance rShoulder rEar
                                      + distance lShoulder lEar) / #2 |}).
  { subst r asymmetry. unfold computeShoulderTension.
    destruct baseDist as [b|]; cbn in Hb; [rewrite Hb|];
      destruct (asymmetryOf rShoulder rEar lShoulder lEar >? #0.2);
      reflexivity. }
  rewrite Hr. split; [|split; [|split]].
  - destruct (asymmetry >? #0.2); reflexivity.
  - intros ->. split; reflexivity.
  - intros ->. split; reflexivity.
  - intros lm ts state Hnone. unfold processFrame.
    destruct (ts - bowDistResetTime state >? #10000);
      cbn [currentMetrics shoulder]; rewrite Hnone; reflexivity.
Qed.

(** The application never stores a baseline that is not positive:
    [processFrame] keeps the baseline and [calibrateShoulder] only stores a
    positive one.  So no baseline, in the application, is [null]. *)
Lemma baseline_null_or_positive (state : State T) :
  baselineSet state ->
  baselineSet (calibrateShoulder state)
  /\ forall lm ts, baselineSet (processFrame lm ts state).
Proof.
  intros Hb. split.
  - unfold calibrateShoulder.
    destruct (lastShoulderEarDist state) as [d|]; [|exact Hb].
    destruct (d >? #0) eqn:E; [exact E|exact Hb].
  - intros lm ts. unfold baselineSet, processFrame.
    destruct (ts - bowDistResetTime state >? #10000); exact Hb.
Qed.

(** C6. On an empty log the report is the message that no pose was
    detected, a value that carries no number; and only an empty log gets
    it. *)
Theorem showDiagnoseReport_empty :
  showDiagnoseReport (T := T) [] = NoPoseDetected
  /\ forall log : list (LogEntry T),
       showDiagnoseReport log = NoPoseDetected <-> log = [].
Proof.
  split; [reflexivity|].
  intros [|l log]; split; intros H; try reflexivity; discriminate.
Qed.

(** C10. [computeElbowHeight] does not depend on [lHip]; the body scale it
    divides by is computed from [shoulder] and [rHip] alone. *)
Theorem computeElbowHeight_ignores_lHip
    (shoulder elbow : Point T) (rHip lHip lHip' : option (Point T)) :
  computeElbowHeight shoulder elbow rHip lHip
  = computeElbowHeight shoulder elbow rHip lHip'
  /\ relativeHeight (computeElbowHeight shoulder elbow rHip lHip)
     = round ((py elbow - py shoulder) / bodyScaleOf shoulder rHip * #100)
       / #100
  /\ bodyScaleOf shoulder None = #0.3.
Proof.
  split; [reflexivity|]. split.
  - unfold computeElbowHeight.
    repeat match goal with |- context [if ?c then _ else _] => destruct c end;
      reflexivity.
  - unfold bodyScaleOf. destruct (#0.3 <? #0.01); reflexivity.
Qed.

(** *** The same control flow on any numbers, binary64 included *)

(** The zone thresholds of [computeBowZone]. *)
Lemma computeBowZone_thresholds (shoulder elbow wrist : Point T) :
  let armLength := distance shoulder elbow + distance elbow wrist in
  let ratio := distance shoulder wrist / armLength in
  let r := computeBowZone shoulder elbow wrist in
  ((armLength <? #0.01) = true ->
     r = {| zone := middle; extensionRatio := #0.5 |})
  /\ ((armLength <? #0.01) = false ->
        ((ratio <? #0.55) = true -> zone r = frog)
        /\ ((ratio <? #0.55) = false -> (ratio <? #0.78) = true ->
              zone r = middle)
        /\ ((ratio <? #0.55) = false -> (ratio <? #0.78) = false ->
              zone r = tip)
        /\ extensionRatio r = round (ratio * #100) / #100).
Proof.
  cbv zeta. unfold computeBowZone. split; intros ->; [reflexivity|].
  cbn [zone extensionRatio]. repeat split.
  - intros ->. reflexivity.
  - intros -> ->. reflexivity.
  - intros -> ->. reflexivity.
Qed.

(** The percentages of [computeDistributionPercent]. *)
Lemma computeDistributionPercent_remainder (dist : BowDistribution T) :
  let total := c_tip dist + c_middle dist + c_frog dist in
  let r := computeDistributionPercent dist in
  ((total =? #0) = true ->
     r = {| d_tip := #33; d_middle := #34; d_frog := #33; d_label := "--" |})
  /\ ((total =? #0) = false ->
        d_tip r = round (c_tip dist / total * #100)
        /\ d_frog r = round (c_frog dist / total * #100)
        /\ d_middle r = #100 - d_tip r - d_frog r).
Proof.
  cbv zeta. unfold computeDistributionPercent.
  split; intros ->; [reflexivity|]. repeat split.
Qed.

(** The overall score of a report, as the sums of the source run. *)
Lemma showDiagnoseReport_weighted (log : list (LogEntry T)) :
  log <> [] ->
  exists r : Report T,
    showDiagnoseReport log = Shown r
    /\ let e := match elbowStatus r with
                | good => #90 | warn => #60 | bad => #30 end in
       let s := match shoulderStatus r with
                | good => #95 | warn => #60 | bad => #30 end in
       let d := match distStatus r with
                | good => #90 | warn => #65 | bad => #35 end in
       overall r
       = match avgStraightness r with
         | Some a =>
             round ((#0 + a * #3 + e * #2 + s * #2 + d * #1)
                    / (#0 + #3 + #2 + #2 + #1))
         | None =>
             round ((#0 + e * #2 + s * #2 + d * #1) / (#0 + #2 + #2 + #1))
         end.
Proof.
  intros Hne. destruct log as [|l0 log0]; [congruence|].
  unfold showDiagnoseReport. eexists. split; [reflexivity|].
  cbn [overall avgStraightness elbowStatus shoulderStatus distStatus].
  cbv zeta. unfold scoresOf.
  destruct (if Nat.ltb 0 _ then Some _ else None);
    cbn [fold_left app fst snd]; reflexivity.
Qed.

(** *** Advice *)

Lemma computeElbowHeight_label_high (shoulder elbow : Point T) rHip lHip :
  el_label (computeElbowHeight (T := T) shoulder elbow rHip lHip) = "高すぎ"
  -> el_status (computeElbowHeight shoulder elbow rHip lHip) = warn.
Proof.
  unfold computeElbowHeight.
  repeat match goal with |- context [if ?c then _ else _] => destruct c end;
    cbn; intros H; try reflexivity; discriminate.
Qed.

(** C7, as the code has it.  The advice is the message of the first metric
    with an issue, in the order straightness, elbow, shoulder, and a
    positive message when there is none; that message is the special one
    exactly when the distribution is labelled as full bow.  Straightness and
    shoulder have an issue exactly when their status is not [good]; so has
    the elbow, whose too-high label the evaluator only emits with [warn]. *)
Theorem generateAdvice_priority (metrics : Metrics T) :
  generateAdvice metrics
  = match firstIssue [straightnessIssue (straightness metrics);
                      elbowIssue (elbow metrics);
                      shoulderIssue (shoulder metrics)] with
    | Some msg => msg
    | None => positiveAdvice (distribution metrics)
    end
  /\ (forall s : Straightness T,
        straightnessIssue (Some s) = None <-> st_status s = good)
  /\ (forall s : ShoulderTension T,
        shoulderIssue (Some s) = None <-> sh_status s = good)
  /\ (forall e : ElbowHeight T,
        elbowIssue (Some e) = None <->
        el_status e = good /\ el_label e <> "高すぎ")
  /\ (forall (shoulder elbow : Point T) rHip lHip,
        elbowIssue (Some (computeElbowHeight shoulder elbow rHip lHip)) = None
        <-> el_status (computeElbowHeight shoulder elbow rHip lHip) = good)
  /\ (forall d : Distribution T,
        positiveAdvice (Some d) = adviceFullBow <-> d_label d = "全弓")
  /\ (forall d : Distribution T,
        d_label d <> "全弓" -> positiveAdvice (Some d) = adviceGood)
  /\ positiveAdvice (T := T) None = adviceGood.
Proof.
  split.
  { unfold generateAdvice, firstIssue, straightnessIssue, elbowIssue,
      shoulderIssue, positiveAdvice, push.
    destruct (straightness metrics) as [s|]; [destruct (st_status s)|];
      (destruct (elbow metrics) as [e|];
         [destruct (el_status e); destruct (String.eqb (el_label e) _)|]);
      (destruct (shoulder metrics) as [h|];
         [destruct (sh_status h); try destruct (String.eqb (sh_label h) _)|]);
      reflexivity. }
  split.
  { intros s. cbn. destruct (st_status s); split; intros; congruence. }
  split.
  { intros s. cbn.
    destruct (sh_status s); try destruct (String.eqb _ _);
      split; intros; congruence. }
  assert (He : forall e : ElbowHeight T, elbowIssue (Some e) = None <->
             el_status e = good /\ el_label e <> "高すぎ").
  { intros e. cbn.
    destruct (el_status e); destruct (String.eqb_spec (el_label e) "高すぎ");
      split; try intros [? ?]; try split; intros; congruence. }
  split; [exact He|]. split.
  { intros s e h l. rewrite He. split; [now intros [? _]|].
    intros Hg. split; [exact Hg|]. intros Hl.
    apply computeElbowHeight_label_high in Hl. congruence. }
  split.
  { intros d. cbn. destruct (String.eqb_spec (d_label d) "全弓");
      split; intros; try congruence; try reflexivity.
    exfalso. revert H. vm_compute. discriminate. }
  split; [|reflexivity].
  intros d Hd. cbn. destruct (String.eqb_spec (d_label d) "全弓");
    [contradiction|reflexivity].
Qed.

End Generic.

(** ** Numeric properties, over the real numbers *)

Section OverReals.

Local Open Scope string_scope.
Local Open Scope R_scope.

Lemma ltb_lt (x y : R) : Real.ltb x y = true <-> x < y.
Proof. unfold Real.ltb. destruct (Rlt_dec x y); split; intros; congruence || easy. Qed.

Lemma ltb_ge (x y : R) : Real.ltb x y = false <-> y <= x.
Proof.
  unfold Real.ltb. destruct (Rlt_dec x y); split; intros; try congruence; lra.
Qed.

Lemma leb_le (x y : R) : Real.leb x y = true <-> x <= y.
Proof. unfold Real.leb. destruct (Rle_dec x y); split; intros; congruence || easy. Qed.

Lemma leb_gt (x y : R) : Real.leb x y = false <-> y < x.
Proof.
  unfold Real.leb. destruct (Rle_dec x y); split; intros; try congruence; lra.
Qed.

Lemma eqb_eq (x y : R) : Real.eqb x y = true <-> x = y.
Proof. unfold Real.eqb. destruct (Req_dec_T x y); split; intros; congruence || easy. Qed.

Lemma eqb_neq (x y : R) : Real.eqb x y = false <-> x <> y.
Proof. unfold Real.eqb. destruct (Req_dec_T x y); split; intros; congruence || easy. Qed.

(** [Math.round] over the reals yields the nearest integer. *)
Lemma round_nearest (x : R) : x - / 2 < Real.round x <= x + / 2.
Proof.
  unfold Real.round.
  destruct (base_Int_part (x + / 2)) as [H1 H2]. lra.
Qed.

Lemma round_integer (x : R) : exists k : Z, Real.round x = IZR k.
Proof. now exists (Int_part (x + / 2)). Qed.








(** *** The overall score *)

Lemma len_INR {A} (l : list A) : len (T := R) l = INR (List.length l).
Proof.
  unfold len. cbn [lit R_JSNum]. unfold Q2R, inject_Z. cbn [Qnum Qden].
  rewrite INR_IZR_INZ. lra.
Qed.

Lemma fold_left_Rplus (xs : list R) (a : R) :
  fold_left Rplus xs a = a + fold_right Rplus 0 xs.
Proof.
  revert a. induction xs as [|x xs IH]; intros a; cbn; [lra|].
  rewrite IH. lra.
Qed.

Lemma sum_total (xs : list R) : App.sum xs = fold_right Rplus 0 xs.
Proof.
  unfold App.sum. cbn [add lit R_JSNum]. rewrite fold_left_Rplus.
  unfold Q2R. cbn. lra.
Qed.

Lemma validStraightnessOf_nil {T} (log : list (LogEntry T)) :
  validStraightnessOf log = [] <->
  forall l, In l log -> l_straightness l = None.
Proof.
  induction log as [|l log IH]; cbn.
  - split; [intros _ ? []|reflexivity].
  - destruct (l_straightness l) eqn:E.
    + split; [discriminate|]. intros H.
      specialize (H l (or_introl eq_refl)). congruence.
    + rewrite IH. split.
      * intros H x [<-|Hx]; [exact E|now apply H].
      * intros H x Hx. apply H. now right.
Qed.

Lemma overall_formula (avg : option R) (es ss ds : Status) :
  let scores := scoresOf avg es ss ds in
  let e := channelScore 90 60 30 es in
  let s := channelScore 95 60 30 ss in
  let d := channelScore 90 65 35 ds in
  (round (fold_left (fun a s => a + fst s * snd s) scores #0
          / fold_left (fun a s => a + snd s) scores #0))%js
  = match avg with
    | Some a =>
        Real.round ((3 * a + 2 * e + 2 * s + 1 * d) / (3 + 2 + 2 + 1))
    | None => Real.round ((2 * e + 2 * s + 1 * d) / (2 + 2 + 1))
    end.
Proof.
  intros scores e s d. subst scores e s d. unfold scoresOf.
  destruct avg as [a|]; destruct es, ss, ds; cbn [fold_left app fst snd];
    at_reals; cbn [channelScore]; f_equal; lra.
Qed.



End OverReals.

Section OverRealsMore.

Local Open Scope R_scope.

(** On the reals the score of a stroke is an integer between 0 and 100,
    within one half of the clamped value. *)
Lemma round_clamped (x : R) :
  0 <= x <= 100 -> 0 <= Real.round x <= 100.
Proof.
  intros Hx. destruct (round_nearest x) as [Hlo Hhi].
  unfold Real.round in *. set (k := Int_part (x + / 2)) in *.
  assert (Hk0 : (-1 < k)%Z) by (apply lt_IZR; lra).
  assert (Hk1 : (k < 101)%Z) by (apply lt_IZR; lra).
  split; apply IZR_le; lia.
Qed.

Lemma scoreStroke_score_range (stroke : list (TrailSample R)) (s : R) :
  score (scoreStroke stroke) = Some s ->
  0 <= s <= 100 /\ exists k : Z, s = IZR k.
Proof.
  unfold scoreStroke.
  destruct (ltb (strokeLength stroke) (lit 0.03%Q)); [discriminate|].
  cbn [score]. intros [= <-]. at_reals. split.
  - apply round_clamped.
    replace (0 * / 1) with 0 by lra. replace (100 * / 1) with 100 by lra.
    split; [apply Rmax_l|].
    apply Rmax_lub; [lra|apply Rmin_l].
  - apply round_integer.
Qed.



End OverRealsMore.

(** ** The model at work *)

Section Evaluations.

Local Open Scope string_scope.

(** A straight stroke of ten samples scores 100, with status [good]. *)
Example straight_stroke_scores_100 :
  score (computeBowStraightness Samples.straightTrail) = Some 100%float
  /\ st_status (computeBowStraightness Samples.straightTrail) = good.
Proof. vm_compute. split; reflexivity. Qed.

(** The bowed stroke has a curvature above 5 and status [bad]. *)
Example bowed_stroke_is_bad :
  score (computeBowStraightness Samples.bowedTrail) = Some 60%float
  /\ st_status (computeBowStraightness Samples.bowedTrail) = bad.
Proof. vm_compute. split; reflexivity. Qed.

(** Arms at extension ratios 0.3, 0.6 and 0.9, on binary64 numbers. *)
Example zones_on_floats :
  zone (computeBowZone (Samples.pt 0 0) (Samples.pt 0.65 0)
                       (Samples.pt 0.3 0)) = frog
  /\ zone (computeBowZone (Samples.pt 0 0) (Samples.pt 0.8 0)
                          (Samples.pt 0.6 0)) = middle
  /\ zone (computeBowZone (Samples.pt 0 0) (Samples.pt 0.95 0)
                          (Samples.pt 0.9 0)) = tip.
Proof. vm_compute. repeat split; reflexivity. Qed.

(** Counters 1, 1, 1 give 33, 34, 33 on binary64 numbers. *)
Example thirds_on_floats :
  computeDistributionPercent
    {| c_tip := 1%float; c_middle := 1%float; c_frog := 1%float |}
  = {| d_tip := 33%float; d_middle := 34%float; d_frog := 33%float;
       d_label := "全弓" |}.
Proof. vm_compute. reflexivity. Qed.

(** On binary64 numbers the percentages add up to exactly 100 for all
    counters below 24. *)
Example percentages_sum_on_floats :
  forallb Samples.sumsTo100 (Samples.countersBelow 24) = true.
Proof. vm_compute. reflexivity. Qed.

(** The report of a two-entry log on binary64 numbers:
    (3 * 92 + 2 * 60 + 2 * 30 + 35) / 8 = 61.375. *)
Example report_on_floats :
  exists r, showDiagnoseReport [Samples.entryGoodF; Samples.entryTenseF]
            = Shown r
            /\ overall r = 61%float /\ overallStatus r = warn
            /\ elbowStatus r = warn /\ shoulderStatus r = bad
            /\ distStatus r = bad.
Proof. eexists. vm_compute. repeat split; reflexivity. Qed.

(** What the guard on the empty log keeps away: the mean of no entries
    is 0 / 0, which is NaN on binary64 numbers. *)
Example mean_of_nothing_is_nan :
  PrimFloat.is_nan (div (App.sum []) (len (T := float) (@nil float))) = true.
Proof. vm_compute. reflexivity. Qed.

End Evaluations.

(** ** Instances of the theorems *)

Section Instances.

Local Open Scope string_scope.

(** C1 at the sample shoulders and ears, with a baseline of 0: the tension
    is 0 and the asymmetry of 0.5 gives [warn]. *)
Lemma computeShoulderTension_no_baseline_witness :
  noBaseline (Some 0%float)
  /\ tension (computeShoulderTension Samples.rShoulder Samples.rEar
                Samples.lShoulder Samples.lEar (Some 0%float))
     = F64.lit 0
  /\ sh_status (computeShoulderTension Samples.rShoulder Samples.rEar
                  Samples.lShoulder Samples.lEar (Some 0%float)) = warn.
Proof.
  assert (Hb : noBaseline (Some 0%float)) by (vm_compute; reflexivity).
  split; [exact Hb|].
  destruct (computeShoulderTension_no_baseline Samples.rShoulder
              Samples.rEar Samples.lShoulder Samples.lEar _ Hb)
    as (Ht & _ & Hw & _).
  split; [exact Ht|].
  apply Hw. vm_compute. reflexivity.
Defined.

(** C1 as stated fails: with no baseline and ears at different heights
    above the shoulders, the evaluator answers [warn] with the asymmetry
    label, neither [good] nor the calibration-pending label. *)
Lemma computeShoulderTension_asymmetry_counterexample :
  tension (computeShoulderTension Samples.rShoulder Samples.rEar
             Samples.lShoulder Samples.lEar None) = 0%float
  /\ sh_status (computeShoulderTension Samples.rShoulder Samples.rEar
                  Samples.lShoulder Samples.lEar None) = warn
  /\ sh_label (computeShoulderTension Samples.rShoulder Samples.rEar
                 Samples.lShoulder Samples.lEar None) = "左右差あり"
  /\ sh_status (computeShoulderTension Samples.rShoulder Samples.rEar
                  Samples.lShoulder Samples.lEar None) <> good
  /\ sh_label (computeShoulderTension Samples.rShoulder Samples.rEar
                 Samples.lShoulder Samples.lEar None)
     <> "キャリブレーション待ち".
Proof. vm_compute. repeat split; discriminate. Qed.


(** C3 at the first nine samples of the bowed stroke. *)
Lemma computeBowStraightness_insufficient_witness :
  computeBowStraightness (firstn 9 Samples.bowedTrail) = noScore.
Proof.
  apply (proj1 (computeBowStraightness_insufficient
                  (firstn 9 Samples.bowedTrail))).
  vm_compute. lia.
Defined.

(** C4 at the bowed stroke: it is the stroke that is evaluated, and its
    curvature is above 5. *)
Lemma computeBowStraightness_scored_witness :
  (10 <= List.length Samples.bowedTrail)%nat
  /\ evaluatedStroke Samples.bowedTrail = Some Samples.bowedTrail
  /\ st_status (computeBowStraightness Samples.bowedTrail) = bad.
Proof.
  assert (H1 : (10 <= List.length Samples.bowedTrail)%nat)
    by (vm_compute; lia).
  assert (H2 : evaluatedStroke Samples.bowedTrail = Some Samples.bowedTrail)
    by (vm_compute; reflexivity).
  split; [exact H1|]. split; [exact H2|].
  destruct (computeBowStraightness_scored _ _ H1 H2) as (_ & _ & _ & H).
  destruct H as (_ & _ & Hbad & _); [vm_compute; reflexivity|].
  apply Hbad. vm_compute. reflexivity.
Defined.


(** C7 as stated fails: a distribution labelled as balanced gets the same
    message as no distribution at all, not the special one. *)
Lemma generateAdvice_balanced_counterexample :
  d_label (computeDistributionPercent Samples.unevenCounts) = "均等"
  /\ generateAdvice
       (Samples.allGood
          (Some (computeDistributionPercent Samples.unevenCounts)))
     = adviceGood
  /\ generateAdvice (Samples.allGood None) = adviceGood
  /\ adviceGood <> adviceFullBow.
Proof. vm_compute. repeat split; discriminate. Qed.

End Instances.

Section RealInstances.

Local Open Scope R_scope.


End RealInstances.

(** * More properties of the code *)

(** ** Geometry, over the real numbers *)

Section GeometryOverReals.

Local Open Scope R_scope.







End GeometryOverReals.

Section AngleOverReals.

Local Open Scope R_scope.







End AngleOverReals.

(** ** Strokes *)

Section Strokes.

Context {T : Type} `{NT : JSNum T}.
Local Open Scope js_scope.

Lemma segLoopAll_concat (rest : list (TrailSample T)) :
  forall (s : SegState T) (prev : TrailSample T),
    concat (strokes (Spec_segLoopAll s prev rest))
    ++ currentStroke (Spec_segLoopAll s prev rest)
    = concat (strokes s) ++ currentStroke s ++ rest.
Proof.
  induction rest as [|cur rest IH]; intros s prev; cbn [Spec_segLoopAll].
  - now rewrite app_nil_r.
  - rewrite IH. unfold Spec_segStepAll.
    destruct (abs (sx cur - sx prev) <? #0.002); cbn [strokes currentStroke].
    + now rewrite <- app_assoc.
    + destruct ((prevDx s <>? #0)
                && (sign (sx cur - sx prev) <>? sign (prevDx s)));
        cbn [strokes currentStroke].
      * rewrite concat_app. cbn [concat]. rewrite app_nil_r.
        now rewrite <- !app_assoc.
      * now rewrite <- app_assoc.
Qed.

Lemma allStrokes_concat (wristTrail : list (TrailSample T)) :
  concat (Spec_allStrokes wristTrail) = wristTrail.
Proof.
  destruct wristTrail as [|first rest]; [reflexivity|].
  cbn [Spec_allStrokes]. rewrite concat_app. cbn [concat].
  rewrite app_nil_r, segLoopAll_concat. reflexivity.
Qed.

Lemma in_concat_run {A} (s : list A) (L : list (list A)) :
  In s L -> exists pre post, concat L = pre ++ s ++ post.
Proof.
  induction L as [|x L IH]; intros H; [destruct H|].
  destruct H as [->|H].
  - exists [], (concat L). reflexivity.
  - destruct (IH H) as (pre & post & E).
    exists (x ++ pre), post. cbn [concat]. rewrite E.
    now rewrite app_assoc.
Qed.

Lemma concat_filter_length {A} (p : list A -> bool) (L : list (list A)) :
  (List.length (concat (filter p L)) <= List.length (concat L))%nat.
Proof.
  induction L as [|x L IH]; [reflexivity|].
  cbn [filter concat]. destruct (p x); cbn [concat];
    rewrite ?length_app; lia.
Qed.

(** X4. The strokes the segmentation keeps are runs of consecutive samples
    of the trail, taken in order from a partition of the trail into
    strokes, each of at least 8 samples; together they never hold more
    samples than the trail. *)
Theorem segmentStrokes_runs (wristTrail : list (TrailSample T)) :
  (exists all : list (list (TrailSample T)),
     concat all = wristTrail
     /\ segmentStrokes wristTrail = filter isLong all)
  /\ (forall s, In s (segmentStrokes wristTrail) ->
        (8 <= List.length s)%nat
        /\ exists pre post, wristTrail = pre ++ s ++ post)
  /\ (List.length (concat (segmentStrokes wristTrail))
      <= List.length wristTrail)%nat.
Proof.
  pose proof (allStrokes_concat wristTrail) as Hc.
  pose proof (segmentStrokes_filter wristTrail) as Hf.
  split; [|split].
  - exists (Spec_allStrokes wristTrail). now split.
  - intros s Hs. rewrite Hf in Hs. apply filter_In in Hs.
    destruct Hs as [Hin Hlong]. split.
    + now apply Nat.leb_le.
    + destruct (in_concat_run s _ Hin) as (pre & post & E).
      exists pre, post. now rewrite Hc in E.
  - rewrite Hf.
    apply Nat.le_trans with (List.length (concat (Spec_allStrokes wristTrail)));
      [apply concat_filter_length|now rewrite Hc].
Qed.

End Strokes.

Section StrokesOverReals.

Local Open Scope R_scope.

Lemma steps_snoc (l : list (TrailSample R)) (prev cur : TrailSample R) :
  steps ((l ++ [prev]) ++ [cur]) = steps (l ++ [prev]) ++ [sx cur - sx prev].
Proof.
  induction l as [|a l IH]; [reflexivity|].
  destruct l as [|b l].
  - reflexivity.
  - change (steps (((a :: b :: l) ++ [prev]) ++ [cur]))
      with ((sx b - sx a) :: steps (((b :: l) ++ [prev]) ++ [cur])).
    rewrite IH. reflexivity.
Qed.

Lemma sign_real (x : R) :
  (0 < x -> sign x = 1) /\ (x < 0 -> sign x = -1).
Proof.
  unfold sign. at_reals.
  replace (0 * / 1) with 0 by lra.
  split; intros Hx.
  - destruct (Real.ltb 0 x) eqn:E; [lra|]. apply ltb_ge in E. lra.
  - destruct (Real.ltb 0 x) eqn:E; [apply ltb_lt in E; lra|].
    destruct (Real.ltb x 0) eqn:E'; [lra|]. apply ltb_ge in E'. lra.
Qed.

Lemma followsDx_direction (d : R) (l : list R) :
  Forall (followsDx d) l -> Forall rightward l \/ Forall leftward l.
Proof.
  intros H. destruct (Rlt_dec 0 d) as [Hd|Hd].
  - left. eapply Forall_impl; [|exact H].
    intros dx [Hn|[[Hp _]|[_ Hq]]]; [now left|now right|lra].
  - right. eapply Forall_impl; [|exact H].
    intros dx [Hn|[[_ Hq]|[Hp _]]]; [now left|lra|now right].
Qed.

Lemma segStep_inv (s : SegState R) (prev cur : TrailSample R) :
  segInv s prev -> segInv (segStep s prev cur) cur.
Proof.
  intros (Hs & (l & Hl) & Hc). unfold segStep.
  set (dx := sub (sx cur) (sx prev)).
  assert (Hsteps : steps (currentStroke s ++ [cur])
                   = steps (currentStroke s) ++ [sx cur - sx prev])
    by (rewrite Hl; apply steps_snoc).
  destruct (ltb (abs dx) (lit 0.002%Q)) eqn:Enoise.
  - (* a step below the noise floor *)
    assert (Hn : Rabs (sx cur - sx prev) < 0.002).
    { subst dx. at_reals. apply ltb_lt in Enoise. lra. }
    split; [exact Hs|]. split; [exists (currentStroke s); reflexivity|].
    cbn [currentStroke prevDx]. rewrite Hsteps.
    apply Forall_app. split; [exact Hc|].
    constructor; [now left|constructor].
  - assert (Hn : 0.002 <= Rabs (sx cur - sx prev)).
    { subst dx. at_reals. apply ltb_ge in Enoise. lra. }
    assert (Hdx : dx = sx cur - sx prev) by reflexivity.
    destruct (negb (eqb (prevDx s) (lit 0%Q))
              && negb (eqb (sign dx) (sign (prevDx s)))) eqn:Eflip.
    + (* the direction flips: the current stroke is closed *)
      split; [|split; [exists []; reflexivity|constructor]].
      cbn [strokes]. unfold pushStroke.
      destruct (Nat.leb 8 (List.length (currentStroke s))); [|exact Hs].
      apply Forall_app. split; [exact Hs|].
      constructor; [|constructor].
      now apply followsDx_direction with (d := prevDx s).
    + (* the stroke goes on *)
      split; [exact Hs|]. split; [exists (currentStroke s); reflexivity|].
      cbn [currentStroke prevDx]. rewrite Hsteps.
      assert (Hsign : prevDx s = 0 \/ sign dx = sign (prevDx s)).
      { apply andb_false_iff in Eflip. destruct Eflip as [E|E];
          apply negb_false_iff in E; cbn [eqb R_JSNum] in E;
          apply eqb_eq in E; [left|right; exact E].
        rewrite E. unfold Q2R. cbn. lra. }
      assert (Hnz : 0 < dx \/ dx < 0).
      { rewrite Hdx. unfold Rabs in Hn.
        destruct (Rcase_abs (sx cur - sx prev)); lra. }
      apply Forall_app. split.
      * eapply Forall_impl; [|exact Hc].
        intros d [Hd|Hd]; [now left|]. right.
        destruct Hsign as [H0|Hsg]; [lra|].
        destruct (sign_real dx) as [Sp Sn].
        destruct (sign_real (prevDx s)) as [Pp Pn].
        destruct Hd as [[Hd Hp]|[Hd Hp]]; destruct Hnz as [Hx|Hx];
          (left; split; lra) || (right; split; lra).
      * constructor; [|constructor]. right. rewrite <- Hdx.
        destruct Hnz; [left|right]; split; assumption.
Qed.

Lemma segLoop_inv (rest : list (TrailSample R)) :
  forall (s : SegState R) (prev : TrailSample R),
    segInv s prev ->
    exists last, segInv (segLoop s prev rest) last.
Proof.
  induction rest as [|cur rest IH]; intros s prev H; cbn [segLoop].
  - now exists prev.
  - apply IH with (prev := cur). now apply segStep_inv.
Qed.

(** X5. Inside every stroke the segmentation keeps, all the steps of at
    least 0.002 go in the same horizontal direction. *)
Theorem segmentStrokes_one_direction (wristTrail : list (TrailSample R)) :
  Forall oneDirection (segmentStrokes wristTrail).
Proof.
  destruct wristTrail as [|first rest]; [constructor|].
  cbn [segmentStrokes].
  destruct (segLoop_inv rest
              {| strokes := []; currentStroke := [first];
                 prevDx := lit 0%Q |} first) as (last & Hs & _ & Hc).
  { split; [constructor|]. split; [exists []; reflexivity|constructor]. }
  unfold pushStroke.
  destruct (Nat.leb 8 _); [|exact Hs].
  apply Forall_app. split; [exact Hs|].
  constructor; [|constructor].
  eapply followsDx_direction. exact Hc.
Qed.

End StrokesOverReals.

(** ** Scores, over the real numbers *)

Section ScoresOverReals.

Local Open Scope R_scope.


Lemma round_ge_int (x : R) (k : Z) : IZR k <= x -> IZR k <= Real.round x.
Proof.
  intros H. destruct (round_nearest x) as [Hlo _].
  destruct (round_integer x) as [j Hj]. rewrite Hj in *.
  apply IZR_le. assert ((k - 1 < j)%Z); [|lia].
  apply lt_IZR. rewrite minus_IZR. lra.
Qed.

Lemma round_le_int (x : R) (k : Z) : x <= IZR k -> Real.round x <= IZR k.
Proof.
  intros H. destruct (round_nearest x) as [_ Hhi].
  destruct (round_integer x) as [j Hj]. rewrite Hj in *.
  apply IZR_le. assert ((j < k + 1)%Z); [|lia].
  apply lt_IZR. rewrite plus_IZR. lra.
Qed.


















End ScoresOverReals.

(** ** Zone, elbow and shoulder, over the real numbers *)

Section EvaluatorsOverReals.

Local Open Scope string_scope.
Local Open Scope R_scope.






Lemma round_half_up (k : Z) : Real.round (IZR k + / 2) = IZR (k + 1).
Proof.
  unfold Real.round. f_equal. symmetry. apply Int_part_spec.
  rewrite plus_IZR. lra.
Qed.

Lemma percent_share (a t : R) :
  0 <= a <= t -> 0 < t -> 0 <= a / t * 100 <= 100.
Proof.
  intros Ha Ht.
  assert (Hinv : 0 < / t) by now apply Rinv_0_lt_compat.
  assert (H1 : a / t <= 1).
  { apply (Rmult_le_reg_r t); [lra|].
    unfold Rdiv. rewrite Rmult_assoc, Rinv_l by lra. lra. }
  assert (H0 : 0 <= a / t) by (apply Rmult_le_pos; lra).
  lra.
Qed.

(** X9. For counters that are not negative and not all zero, the tip and
    frog percentages lie between 0 and 100 and the middle percentage
    between -1 and 100; -1 is reached, at the counters 99, 0, 101.  The
    label of no data is given for a zero total only. *)
Theorem computeDistributionPercent_bounds (a b c : Z) :
  (0 <= a)%Z -> (0 <= b)%Z -> (0 <= c)%Z -> (a + b + c <> 0)%Z ->
  let r := computeDistributionPercent
             {| c_tip := IZR a; c_middle := IZR b; c_frog := IZR c |} in
  0 <= d_tip r <= 100
  /\ 0 <= d_frog r <= 100
  /\ -1 <= d_middle r <= 100
  /\ d_label r <> "--"
  /\ d_middle (computeDistributionPercent
                 {| c_tip := 99; c_middle := 0; c_frog := 101 |}) = -1.
Proof.
  intros Ha Hb Hc Hne r.
  assert (Hex : d_middle (computeDistributionPercent
                   {| c_tip := 99; c_middle := 0; c_frog := 101 |}) = -1).
  { unfold computeDistributionPercent. cbn [c_tip c_middle c_frog]. at_reals.
    destruct (Real.eqb (99 + 0 + 101) (0 * / 1)) eqn:E;
      [apply eqb_eq in E; lra|].
    cbn [d_middle].
    replace (99 / (99 + 0 + 101) * (100 * / 1)) with (IZR 49 + / 2) by lra.
    replace (101 / (99 + 0 + 101) * (100 * / 1)) with (IZR 50 + / 2) by lra.
    rewrite !round_half_up. cbn. lra. }
  split; [|split; [|split; [|split; [|exact Hex]]]]; clear Hex.
  all: subst r; unfold computeDistributionPercent;
    cbn [c_tip c_middle c_frog]; at_reals.
  all: replace (IZR a + IZR b + IZR c) with (IZR (a + b + c))
         by (now rewrite !plus_IZR).
  all: destruct (Real.eqb (IZR (a + b + c)) (0 * / 1)) eqn:E;
         [apply eqb_eq in E; replace (0 * / 1) with 0 in E by lra;
          apply eq_IZR in E; contradiction|].
  all: assert (Ht : 0 < IZR (a + b + c)) by (apply IZR_lt; lia).
  all: assert (HA : 0 <= IZR a <= IZR (a + b + c))
         by (split; apply IZR_le; lia).
  all: assert (HC : 0 <= IZR c <= IZR (a + b + c))
         by (split; apply IZR_le; lia).
  all: replace (100 * / 1) with 100 by lra.
  all: pose proof (percent_share _ _ HA Ht) as PA.
  all: pose proof (percent_share _ _ HC Ht) as PC.
  all: pose proof (round_clamped _ PA) as RA.
  all: pose proof (round_clamped _ PC) as RC.
  - exact RA.
  - exact RC.
  - cbn [d_middle].
    destruct (round_nearest (IZR a / IZR (a + b + c) * 100)) as [_ UA].
    destruct (round_nearest (IZR c / IZR (a + b + c) * 100)) as [_ UC].
    destruct (round_integer (IZR a / IZR (a + b + c) * 100)) as [i Hi].
    destruct (round_integer (IZR c / IZR (a + b + c) * 100)) as [j Hj].
    rewrite Hi, Hj in *. split; [|lra].
    assert (Hsum : IZR a / IZR (a + b + c) * 100
                   + IZR c / IZR (a + b + c) * 100 <= 100).
    { replace (IZR a / IZR (a + b + c) * 100
               + IZR c / IZR (a + b + c) * 100)
        with (IZR (a + c) / IZR (a + b + c) * 100)
        by (rewrite plus_IZR; field; lra).
      apply percent_share; [|exact Ht]. split; apply IZR_le; lia. }
    assert (Hij : (i + j < 102)%Z).
    { apply lt_IZR. rewrite plus_IZR. lra. }
    assert (H' : IZR (i + j) <= 101) by (apply IZR_le; lia).
    rewrite plus_IZR in H'. lra.
  - cbn [d_label].
    repeat match goal with
           | |- context [if ?b then _ else _] => destruct b
           end; discriminate.
Qed.


End EvaluatorsOverReals.

(** ** The fields of the state after a frame *)

Section FrameFields.

Context {T : Type} `{NT : JSNum T}.
Local Open Scope js_scope.

(** The sample [processFrame] appends to the trail. *)
Lemma processFrame_wristTrail (lm : Landmarks T) (ts : T) (state : State T) :
  wristTrail (processFrame lm ts state)
  = let trail := wristTrail state
                 ++ [{| sx := px (RIGHT_WRIST lm); sy := py (RIGHT_WRIST lm);
                        st := ts |}] in
    if Nat.ltb 60 (List.length trail) then List.tl trail else trail.
Proof.
  unfold processFrame.
  destruct (ts - bowDistResetTime state >? #10000); reflexivity.
Qed.

Lemma processFrame_baseline (lm : Landmarks T) (ts : T) (state : State T) :
  baseShoulderEarDist (processFrame lm ts state) = baseShoulderEarDist state.
Proof.
  unfold processFrame.
  destruct (ts - bowDistResetTime state >? #10000); reflexivity.
Qed.



Lemma processFrame_diagnosing (lm : Landmarks T) (ts : T) (state : State T) :
  diagnosing (processFrame lm ts state) = diagnosing state.
Proof.
  unfold processFrame.
  destruct (ts - bowDistResetTime state >? #10000); reflexivity.
Qed.

Lemma processFrame_log (lm : Landmarks T) (ts : T) (state : State T) :
  (diagnosing state = false ->
     diagnoseLog (processFrame lm ts state) = diagnoseLog state)
  /\ (diagnosing state = true ->
        exists entry,
          diagnoseLog (processFrame lm ts state)
          = diagnoseLog state ++ [entry]
          /\ l_bowZone entry
             = zone (computeBowZone (RIGHT_SHOULDER lm) (RIGHT_ELBOW lm)
                                    (RIGHT_WRIST lm))).
Proof.
  unfold processFrame.
  destruct (ts - bowDistResetTime state >? #10000);
    cbn [diagnoseLog]; split; intros ->; try reflexivity;
    eexists; split; reflexivity.
Qed.


Lemma processFrame_smoothStraightness (lm : Landmarks T) (ts : T)
    (state : State T) :
  smoothStraightness (processFrame lm ts state)
  = match score (computeBowStraightness
                   (wristTrail (processFrame lm ts state))) with
    | Some sc => Some (ema (smoothStraightness state) sc #0.15)
    | None => smoothStraightness state
    end.
Proof.
  rewrite processFrame_wristTrail. unfold processFrame.
  destruct (ts - bowDistResetTime state >? #10000); reflexivity.
Qed.

End FrameFields.

(** ** Shoulder tension against a baseline, over the real numbers *)

Section ShoulderOverReals.

Local Open Scope string_scope.
Local Open Scope R_scope.






End ShoulderOverReals.

(** ** The pipeline of a frame *)

Section Pipeline.

Context {T : Type} `{NT : JSNum T}.
Local Open Scope string_scope.
Local Open Scope list_scope.
Local Open Scope js_scope.

Lemma processFrame_trail_cases (lm : Landmarks T) (ts : T) (state : State T) :
  ((List.length (wristTrail state) < 60)%nat ->
     wristTrail (processFrame lm ts state)
     = wristTrail state ++ [wristSample lm ts])
  /\ ((60 <= List.length (wristTrail state))%nat ->
        wristTrail (processFrame lm ts state)
        = List.tl (wristTrail state) ++ [wristSample lm ts]).
Proof.
  rewrite processFrame_wristTrail. cbv zeta. fold (wristSample lm ts).
  rewrite length_app. cbn [List.length]. split; intros H.
  - destruct (Nat.ltb 60 _) eqn:E; [apply Nat.ltb_lt in E; lia|reflexivity].
  - destruct (Nat.ltb 60 _) eqn:E; [|apply Nat.ltb_ge in E; lia].
    destruct (wristTrail state); [cbn in H; lia|reflexivity].
Qed.

Lemma processFrame_trail_length (lm : Landmarks T) (ts : T)
    (state : State T) :
  (List.length (wristTrail state) <= 60)%nat ->
  List.length (wristTrail (processFrame lm ts state))
  = Nat.min 60 (S (List.length (wristTrail state))).
Proof.
  intros H. destruct (processFrame_trail_cases lm ts state) as [Hs Hf].
  destruct (Nat.lt_ge_cases (List.length (wristTrail state)) 60) as [L|L].
  - rewrite (Hs L), length_app. cbn [List.length]. lia.
  - rewrite (Hf L), length_app. cbn [List.length].
    destruct (wristTrail state); cbn [List.length List.tl] in *; lia.
Qed.

Lemma processFrames_cons (f : Landmarks T * T)
    (frames : list (Landmarks T * T)) (state : State T) :
  processFrames (f :: frames) state
  = processFrames frames (processFrame (fst f) (snd f) state).
Proof. reflexivity. Qed.

Lemma processFrames_snoc (frames : list (Landmarks T * T))
    (f : Landmarks T * T) (state : State T) :
  processFrames (frames ++ [f]) state
  = processFrame (fst f) (snd f) (processFrames frames state).
Proof. unfold processFrames. now rewrite fold_left_app. Qed.

Lemma processFrames_trail_length (frames : list (Landmarks T * T)) :
  forall state : State T,
    (List.length (wristTrail state) <= 60)%nat ->
    List.length (wristTrail (processFrames frames state))
    = Nat.min 60 (List.length (wristTrail state) + List.length frames).
Proof.
  induction frames as [|f frames IH]; intros state H.
  - unfold processFrames. cbn [fold_left List.length]. lia.
  - rewrite processFrames_cons.
    pose proof (processFrame_trail_length (fst f) (snd f) state H) as E.
    rewrite IH by (rewrite E; lia). rewrite E. cbn [List.length]. lia.
Qed.

(** X13. The wrist trail is a window of the last 60 samples: a frame
    appends its wrist sample, and drops the oldest sample when the trail
    already holds 60.  After any number of frames a trail that held at
    most 60 samples holds the smaller of 60 and the old length plus the
    number of frames. *)
Theorem wristTrail_window (lm : Landmarks T) (ts : T) (state : State T)
    (frames : list (Landmarks T * T)) :
  (List.length (wristTrail state) <= 60)%nat ->
  ((List.length (wristTrail state) < 60)%nat ->
     wristTrail (processFrame lm ts state)
     = wristTrail state ++ [wristSample lm ts])
  /\ (List.length (wristTrail state) = 60%nat ->
        wristTrail (processFrame lm ts state)
        = List.tl (wristTrail state) ++ [wristSample lm ts])
  /\ List.length (wristTrail (processFrames frames state))
     = Nat.min 60 (List.length (wristTrail state) + List.length frames)
  /\ (List.length (wristTrail (processFrames frames state)) <= 60)%nat.
Proof.
  intros H. destruct (processFrame_trail_cases lm ts state) as [Hs Hf].
  split; [exact Hs|]. split; [intros E; apply Hf; lia|].
  rewrite (processFrames_trail_length frames state H). split; lia.
Qed.

Lemma processFrames_warmup (frames : list (Landmarks T * T)) :
  forall state : State T,
    (List.length (wristTrail state) + List.length frames < 10)%nat ->
    smoothStraightness (processFrames frames state)
    = smoothStraightness state.
Proof.
  induction frames as [|f frames IH]; intros state H; [reflexivity|].
  rewrite processFrames_cons.
  cbn [List.length] in H.
  assert (Hl : List.length (wristTrail (processFrame (fst f) (snd f) state))
               = S (List.length (wristTrail state))).
  { rewrite processFrame_trail_length by lia. lia. }
  rewrite IH by (rewrite Hl; lia).
  rewrite processFrame_smoothStraightness.
  unfold computeBowStraightness.
  assert (E : Nat.ltb (List.length
                (wristTrail (processFrame (fst f) (snd f) state))) 10 = true)
    by (apply Nat.ltb_lt; rewrite Hl; lia).
  rewrite E. reflexivity.
Qed.

(** X14. While the trail holds fewer than 10 samples no frame changes the
    smoothed straightness: from an empty trail, as [start] leaves it, the
    first nine frames keep the value the state had, and the straightness
    they show is that value rounded, or no score. *)
Theorem straightness_warmup (frames : list (Landmarks T * T))
    (state : State T) :
  (List.length (wristTrail state) + List.length frames < 10)%nat ->
  smoothStraightness (processFrames frames state) = smoothStraightness state
  /\ (frames <> [] ->
      straightness (currentMetrics (processFrames frames state))
      = Some {| score := option_map round (smoothStraightness state);
                curvature := None;
                st_status := scoreStatus (smoothStraightness state) |}).
Proof.
  intros H. split; [now apply processFrames_warmup|].
  intros Hne.
  destruct (exists_last Hne) as (init & f & ->).
  pose proof (processFrames_warmup (init ++ [f]) state H) as Hall.
  rewrite processFrames_snoc in *.
  set (s1 := processFrames init state) in *.
  assert (Hm : straightness (currentMetrics (processFrame (fst f) (snd f) s1))
               = Some {| score := option_map round
                            (smoothStraightness
                               (processFrame (fst f) (snd f) s1));
                         curvature := None;
                         st_status := scoreStatus
                            (smoothStraightness
                               (processFrame (fst f) (snd f) s1)) |}).
  { unfold processFrame.
    destruct (snd f - bowDistResetTime s1 >? #10000); reflexivity. }
  rewrite Hm, Hall. reflexivity.
Qed.


(** X15. Before a calibration the advice never is about the shoulders:
    with no baseline stored, the advice on the screen after a frame is one
    of the two straightness messages, the three elbow messages or the two
    positive messages. *)
Theorem advice_before_calibration (lm : Landmarks T) (ts : T)
    (state : State T) :
  baseShoulderEarDist state = None ->
  let a := adviceShown (processFrame lm ts state) in
  In a [adviceStraightBad; adviceStraightWarn; adviceElbowLow;
        adviceElbowHigh; adviceElbowRaise; adviceFullBow; adviceGood]
  /\ a <> adviceShoulderBad /\ a <> adviceShoulderAsym
  /\ a <> adviceShoulderWarn.
Proof.
  intros Hnone a.
  assert (Hin : In a [adviceStraightBad; adviceStraightWarn; adviceElbowLow;
                      adviceElbowHigh; adviceElbowRaise; adviceFullBow;
                      adviceGood]).
  { subst a. unfold adviceShown, processFrame.
    destruct (ts - bowDistResetTime state >? #10000);
      cbn [currentMetrics]; rewrite Hnone; unfold generateAdvice;
      cbn [straightness elbow shoulder distribution shoulderMetric
           sh_status sh_label st_status el_status el_label Status_eqb];
      unfold push;
      repeat match goal with
             | |- context [if ?b then _ else _] => destruct b
             end; cbn; tauto. }
  split; [exact Hin|].
  repeat split; intros E; rewrite E in Hin; revert Hin; clear;
    cbn [In]; intros H;
    repeat (destruct H as [H|H]; [revert H; vm_compute; discriminate|]);
    exact H.
Qed.

End Pipeline.

Section CountersOverReals.

Local Open Scope string_scope.
Local Open Scope R_scope.



End CountersOverReals.

(** ** Sessions *)

Section Sessions.

Context {T : Type} `{NT : JSNum T}.
Local Open Scope list_scope.

Import Session.

Lemma calibrateShoulder_diagnose (s : State T) :
  diagnosing (calibrateShoulder s) = diagnosing s
  /\ diagnoseLog (calibrateShoulder s) = diagnoseLog s.
Proof.
  unfold calibrateShoulder. destruct (lastShoulderEarDist s) as [d|];
    [destruct (ltb (lit 0%Q) d)|]; split; reflexivity.
Qed.

(** What an animation frame and the calibration button leave alone. *)
Lemma detectLoop_keeps (f : Frame T) (g : Globals T) :
  diagnoseTimer (detectLoop f g) = diagnoseTimer g
  /\ modal (detectLoop f g) = modal g
  /\ isRunning (detectLoop f g) = isRunning g
  /\ diagnosing (state (detectLoop f g)) = diagnosing (state g)
  /\ (diagnosing (state g) = false ->
        diagnoseLog (state (detectLoop f g)) = diagnoseLog (state g))
  /\ (List.length (diagnoseLog (state g))
      <= List.length (diagnoseLog (state (detectLoop f g)))
      <= S (List.length (diagnoseLog (state g))))%nat.
Proof.
  unfold detectLoop.
  destruct (isRunning g) eqn:Erun; cbn [negb];
    [|repeat split; intros; try reflexivity; try assumption; lia].
  destruct (ready f); cbn [negb];
    [|repeat split; intros; try reflexivity; try assumption; lia].
  destruct (eqb (videoTime f) (lastVideoTime g));
    [repeat split; intros; try reflexivity; try assumption; lia|].
  destruct (leb _ _); cbn [state diagnoseTimer modal isRunning];
    (destruct (landmarks f) as [|lm rest];
       [repeat split; intros; try reflexivity; try assumption; lia|]);
    rewrite processFrame_diagnosing;
    destruct (processFrame_log lm (now f) (state g)) as [Hoff Hon];
    (split; [reflexivity|]; split; [reflexivity|]; split; [(reflexivity || exact Erun)|];
     split; [reflexivity|]; split; [exact Hoff|]);
    (destruct (diagnosing (state g));
       [destruct (Hon eq_refl) as (e & -> & _); rewrite length_app;
        cbn [List.length]; lia
       |rewrite (Hoff eq_refl); lia]).
Qed.

Lemma step_idle (g : Globals T) (ev : Event) :
  idle g ->
  idle (step g ev)
  /\ diagnoseLog (state (step g ev)) = diagnoseLog (state g)
  /\ modal (step g ev) = modal g.
Proof.
  intros [Hd Ht]. destruct ev as [f| |]; cbn [step].
  - destruct (detectLoop_keeps f g) as (K1 & K2 & _ & K4 & K5 & _).
    unfold idle. rewrite K1, K4. repeat split; auto.
  - unfold diagnoseTick. rewrite Ht. repeat split; assumption.
  - unfold calibrate, idle.
    destruct (calibrateShoulder_diagnose (state g)) as [C1 C2].
    cbn [withState state diagnoseTimer modal]. rewrite C1, C2.
    repeat split; assumption.
Qed.

Lemma run_idle (evs : list Event) :
  forall g : Globals T,
    idle g ->
    idle (run evs g)
    /\ diagnoseLog (state (run evs g)) = diagnoseLog (state g)
    /\ modal (run evs g) = modal g.
Proof.
  induction evs as [|ev evs IH]; intros g H; [repeat split; apply H|].
  destruct (step_idle g ev H) as (H1 & H2 & H3).
  destruct (IH (step g ev) H1) as (I1 & I2 & I3).
  change (run (ev :: evs) g) with (run evs (step g ev)).
  rewrite I2, I3, H2, H3. repeat split; apply I1.
Qed.

Lemma step_capturing (r : Z) (g : Globals T) (ev : Event) :
  capturing r g -> (1 + ticks [ev] <= r)%Z ->
  capturing (r - ticks [ev]) (step g ev)
  /\ modal (step g ev) = modal g
  /\ (List.length (diagnoseLog (state g))
      <= List.length (diagnoseLog (state (step g ev)))
      <= List.length (diagnoseLog (state g)) + loops [ev])%nat.
Proof.
  intros (Hd & Ht & Hr) Hle. destruct ev as [f| |]; cbn [step ticks loops] in *.
  - destruct (detectLoop_keeps f g) as (K1 & K2 & _ & K4 & _ & K6).
    unfold capturing. rewrite K1, K4, Z.sub_0_r.
    repeat split; auto; lia.
  - unfold diagnoseTick. rewrite Ht.
    destruct (Z.leb_spec (r - 1) 0) as [L|L]; [lia|].
    unfold capturing. cbn [withTimer state diagnoseTimer modal].
    replace (r - (1 + 0))%Z with (r - 1)%Z by lia.
    repeat split; auto; lia.
  - unfold calibrate, capturing.
    destruct (calibrateShoulder_diagnose (state g)) as [C1 C2].
    cbn [withState state diagnoseTimer modal]. rewrite C1, C2, Z.sub_0_r.
    repeat split; auto; lia.
Qed.

Lemma ticks_nonneg (evs : list (@Event T)) : (0 <= ticks evs)%Z.
Proof.
  induction evs as [|[f| |] evs IH]; cbn [ticks]; lia.
Qed.

Lemma run_capturing (evs : list Event) :
  forall (r : Z) (g : Globals T),
    capturing r g -> (1 + ticks evs <= r)%Z ->
    capturing (r - ticks evs) (run evs g)
    /\ modal (run evs g) = modal g
    /\ (List.length (diagnoseLog (state g))
        <= List.length (diagnoseLog (state (run evs g)))
        <= List.length (diagnoseLog (state g)) + loops evs)%nat.
Proof.
  induction evs as [|ev evs IH]; intros r g H Hle.
  - cbn [run fold_left ticks loops]. rewrite Z.sub_0_r.
    repeat split; try apply H; lia.
  - change (run (ev :: evs) g) with (run evs (step g ev)).
    pose proof (ticks_nonneg evs) as Hn.
    assert (Et : ticks (ev :: evs) = (ticks [ev] + ticks evs)%Z)
      by (destruct ev; cbn [ticks]; lia).
    assert (El : loops (ev :: evs) = (loops [ev] + loops evs)%nat)
      by (destruct ev; cbn [loops]; lia).
    destruct (step_capturing r g ev H) as (S1 & S2 & S3); [lia|].
    destruct (IH (r - ticks [ev])%Z (step g ev) S1) as (I1 & I2 & I3); [lia|].
    rewrite Et, El, I2, S2.
    replace (r - (ticks [ev] + ticks evs))%Z
      with (r - ticks [ev] - ticks evs)%Z by lia.
    repeat split; try apply I1; lia.
Qed.

(** X17. A capture started while the camera runs and no interval is set
    begins with an empty log and 15 seconds on the clock.  As long as fewer than 15 seconds have
    been counted it goes on: the modal is untouched and the log holds at
    most one entry per animation frame.  The 15th second ends it: the
    modal shows the report of the log as it is then, and whatever follows
    neither changes the log nor the modal. *)
Theorem diagnose_session (ok : bool) (now0 now1 : T) (f : Frame T)
    (g : Globals T) (before after : list Event) :
  isRunning g = true ->
  diagnoseTimer g = None ->
  let g0 := startDiagnose ok now0 f now1 g in
  diagnoseLog (state g0) = []
  /\ capturing 15 g0
  /\ ((ticks before < 15)%Z ->
        capturing (15 - ticks before) (run before g0)
        /\ modal (run before g0) = modal g
        /\ (List.length (diagnoseLog (state (run before g0)))
            <= loops before)%nat)
  /\ (ticks before = 14%Z ->
        let log := diagnoseLog (state (run before g0)) in
        let g1 := run (before ++ EvTick :: after) g0 in
        idle g1
        /\ modal g1 = Some (showDiagnoseReport log)
        /\ diagnoseLog (state g1) = log).
Proof.
  intros Hrun _ g0.
  assert (H0 : diagnoseLog (state g0) = [] /\ capturing 15 g0
               /\ modal g0 = modal g).
  { subst g0. unfold startDiagnose. cbv zeta. rewrite Hrun. cbv iota.
    rewrite Hrun. cbn [negb]. cbv iota.
    unfold capturing, DIAGNOSE_DURATION.
    cbn [state withDiagnose diagnosing diagnoseLog diagnoseTimer modal].
    repeat split; try reflexivity; lia. }
  destruct H0 as (Hlog & Hcap & Hmod).
  split; [exact Hlog|]. split; [exact Hcap|]. split.
  - intros Ht. destruct (run_capturing before 15 g0 Hcap) as (R1 & R2 & R3);
      [lia|].
    rewrite R2, Hmod. rewrite Hlog in R3. cbn [List.length] in R3.
    repeat split; try apply R1; lia.
  - intros Ht log g1.
    destruct (run_capturing before 15 g0 Hcap) as (R1 & _ & _); [lia|].
    rewrite Ht in R1. destruct R1 as (Rd & Rt & _).
    subst g1. unfold run. rewrite fold_left_app. cbn [fold_left].
    fold (run before g0). fold (run after (step (run before g0) EvTick)).
    set (g2 := run before g0) in *.
    assert (Hfin : step g2 EvTick = finishDiagnose g2).
    { cbn [step]. unfold diagnoseTick. rewrite Rt. reflexivity. }
    rewrite Hfin.
    assert (Hidle : idle (finishDiagnose g2)) by (split; reflexivity).
    destruct (run_idle after (finishDiagnose g2) Hidle) as (I1 & I2 & I3).
    rewrite I2, I3. split; [exact I1|]. split; reflexivity.
Qed.

(** X18. Cancelling a capture shows no report, and while no capture is
    going on nothing is logged and the modal stays as it is, whatever
    frames, seconds and calibrations follow; stopping the camera does not
    touch the log, and starting it adds at most the entry of the frame its
    first call of the detection loop sees. *)
Theorem cancel_shows_nothing (g : Globals T) (evs : list Event) :
  let g1 := run evs (cancelDiagnose g) in
  idle (cancelDiagnose g)
  /\ idle g1
  /\ modal g1 = modal g
  /\ diagnoseLog (state g1) = diagnoseLog (state g)
  /\ diagnoseLog (state (stop g)) = diagnoseLog (state g)
  /\ (forall ok now0 f,
        (List.length (diagnoseLog (state g))
         <= List.length (diagnoseLog (state (start ok now0 f g)))
         <= S (List.length (diagnoseLog (state g))))%nat).
Proof.
  intros g1.
  assert (Hidle : idle (cancelDiagnose g)) by (split; reflexivity).
  destruct (run_idle evs (cancelDiagnose g) Hidle) as (I1 & I2 & I3).
  split; [exact Hidle|]. split; [exact I1|].
  split; [exact I3|]. split; [exact I2|]. split; [reflexivity|].
  intros ok now0 f. unfold start. destruct ok; [|lia].
  match goal with
  | |- context [detectLoop f ?g'] =>
      destruct (detectLoop_keeps f g') as (_ & _ & _ & _ & _ & K)
  end.
  exact K.
Qed.

End Sessions.

(** ** The report, over the real numbers *)

Section ReportOverReals.

Local Open Scope string_scope.
Local Open Scope list_scope.
Local Open Scope R_scope.

(** The fields of the report, as the source computes them. *)
Lemma showDiagnoseReport_fields (log : list (LogEntry R)) :
  log <> [] ->
  exists r : Report R,
    showDiagnoseReport log = Shown r
    /\ avgElbow r
       = Real.round (fold_left (fun a l => a + l_elbowHeight l) log 0
                     / INR (List.length log) * 100) / 100
    /\ elbowStatus r
       = (if Rlt_dec (avgElbow r) (-0.15) then warn
          else if Rlt_dec 0.5 (avgElbow r) then bad
          else if Rlt_dec 0.35 (avgElbow r) then warn else good)
    /\ elbowLabel r
       = (if Rlt_dec (avgElbow r) (-0.15) then "高すぎ"
          else if Rlt_dec 0.5 (avgElbow r) then "低すぎ"
          else if Rlt_dec 0.35 (avgElbow r) then "やや低い" else "適正")
    /\ maxTension r
       = (match validTensionOf log with [] => 0 | _ => maxOf (validTensionOf log) end)
    /\ avgTension r
       = (match validTensionOf log with
          | [] => 0
          | _ => Real.round (App.sum (validTensionOf log)
                             / INR (List.length (validTensionOf log)))
          end)
    /\ shoulderStatus r
       = (if Rlt_dec 25 (maxTension r) then bad
          else if Rlt_dec 15 (avgTension r) then warn else good)
    /\ tipPct r
       = Real.round (c_tip (zoneCountsOf log)
                     / countsTotal (zoneCountsOf log) * 100)
    /\ frogPct r
       = Real.round (c_frog (zoneCountsOf log)
                     / countsTotal (zoneCountsOf log) * 100)
    /\ midPct r = 100 - tipPct r - frogPct r
    /\ avgStraightness r
       = (match validStraightnessOf log with
          | [] => None
          | _ => Some (Real.round (App.sum (validStraightnessOf log)
                         / INR (List.length (validStraightnessOf log))))
          end).
Proof.
  intros Hne. destruct log as [|l0 log0]; [congruence|].
  set (log := l0 :: log0) in *.
  unfold showDiagnoseReport. subst log. eexists. split; [reflexivity|].
  set (log := l0 :: log0) in *.
  cbn [avgElbow elbowStatus elbowLabel maxTension avgTension shoulderStatus
       tipPct frogPct midPct avgStraightness].
  fold (validTensionOf log). fold (zoneCountsOf log).
  rewrite !len_INR. unfold countsTotal.
  cbn [lit add sub mul div ltb R_JSNum].
  replace (Q2R 0) with 0 by (unfold Q2R; cbn; lra).
  replace (Q2R 100) with 100 by (unfold Q2R; cbn; lra).
  replace (Q2R (-0.15)) with (-0.15) by (unfold Q2R; cbn; lra).
  replace (Q2R 0.5) with 0.5 by (unfold Q2R; cbn; lra).
  replace (Q2R 0.35) with 0.35 by (unfold Q2R; cbn; lra).
  replace (Q2R 25) with 25 by (unfold Q2R; cbn; lra).
  replace (Q2R 15) with 15 by (unfold Q2R; cbn; lra).
  unfold Real.ltb.
  split; [reflexivity|].
  split; [repeat match goal with
                 | |- context [Rlt_dec ?a ?b] => destruct (Rlt_dec a b)
                 end; reflexivity|].
  split; [repeat match goal with
                 | |- context [Rlt_dec ?a ?b] => destruct (Rlt_dec a b)
                 end; reflexivity|].
  split; [destruct (validTensionOf log); reflexivity|].
  split; [destruct (validTensionOf log); reflexivity|].
  split; [repeat match goal with
                 | |- context [Rlt_dec ?a ?b] => destruct (Rlt_dec a b)
                 end; reflexivity|].
  split; [reflexivity|]. split; [reflexivity|]. split; [reflexivity|].
  destruct (validStraightnessOf log); reflexivity.
Qed.

Lemma showDiagnoseReport_overall_field (log : list (LogEntry R)) :
  log <> [] ->
  exists r : Report R,
    showDiagnoseReport log = Shown r
    /\ overall r
       = (let e := channelScore 90 60 30 (elbowStatus r) in
          let s := channelScore 95 60 30 (shoulderStatus r) in
          let d := channelScore 90 65 35 (distStatus r) in
          match avgStraightness r with
          | Some a =>
              Real.round ((3 * a + 2 * e + 2 * s + 1 * d) / (3 + 2 + 2 + 1))
          | None => Real.round ((2 * e + 2 * s + 1 * d) / (2 + 2 + 1))
          end).
Proof.
  intros Hne. destruct log as [|l0 log0]; [congruence|].
  unfold showDiagnoseReport. eexists. split; [reflexivity|].
  cbn [overall avgStraightness elbowStatus shoulderStatus distStatus].
  apply overall_formula.
Qed.





Lemma round_ge_half (x : R) (k : Z) :
  IZR k - / 2 <= x -> IZR k <= Real.round x.
Proof.
  intros H. destruct (round_nearest x) as [Hlo _].
  destruct (round_integer x) as [j Hj]. rewrite Hj in *.
  apply IZR_le. assert ((k - 1 < j)%Z); [|lia].
  apply lt_IZR. rewrite minus_IZR. lra.
Qed.

Lemma fold_elbow_uniform (h : R) (log : list (LogEntry R)) :
  (forall l, In l log -> l_elbowHeight l = h) ->
  forall a, fold_left (fun a l => a + l_elbowHeight l) log a
            = a + INR (List.length log) * h.
Proof.
  induction log as [|l log IH]; intros Hall a.
  - cbn. lra.
  - cbn [fold_left]. rewrite IH by (intros; apply Hall; now right).
    rewrite (Hall l (or_introl eq_refl)).
    change (List.length (l :: log)) with (S (List.length log)).
    rewrite S_INR. lra.
Qed.

(** X20. When every entry of the log carries the same elbow height, the
    report shows that height rounded to hundredths; a height from -0.15
    to 0.35 is reported as [good] and right, a height of 0.505 or more,
    such as 0.6, as [bad] and too low. *)
Theorem report_uniform_elbow (h : R) (log : list (LogEntry R)) :
  log <> [] ->
  (forall l, In l log -> l_elbowHeight l = h) ->
  exists r : Report R,
    showDiagnoseReport log = Shown r
    /\ avgElbow r = Real.round (h * 100) / 100
    /\ (-0.15 <= h <= 0.35 ->
          elbowStatus r = good /\ elbowLabel r = "適正")
    /\ (0.505 <= h -> elbowStatus r = bad /\ elbowLabel r = "低すぎ").
Proof.
  intros Hne Hall.
  destruct (showDiagnoseReport_fields log Hne)
    as (r & Hr & Ha & Hs & Hl & _).
  exists r. split; [exact Hr|].
  assert (Hn : 0 < INR (List.length log)).
  { destruct log; [congruence|]. apply lt_0_INR. cbn. lia. }
  assert (Havg : avgElbow r = Real.round (h * 100) / 100).
  { rewrite Ha, (fold_elbow_uniform h log Hall). f_equal. f_equal.
    field. lra. }
  split; [exact Havg|]. rewrite Hs, Hl, Havg. clear Hs Hl Ha Havg. split.
  - intros [H1 H2].
    pose proof (round_ge_int (h * 100) (-15)) as G.
    pose proof (round_le_int (h * 100) 35) as L.
    destruct (Rlt_dec _ (-0.15)); [lra|]. destruct (Rlt_dec 0.5 _); [lra|].
    destruct (Rlt_dec 0.35 _); [lra|]. now split.
  - intros H1. pose proof (round_ge_half (h * 100) 51) as G.
    destruct (Rlt_dec _ (-0.15)); [lra|].
    destruct (Rlt_dec 0.5 _); [now split|]. lra.
Qed.

Lemma maxOf_spec (xs : list R) :
  xs <> [] ->
  In (maxOf xs) xs /\ forall x, In x xs -> x <= maxOf xs.
Proof.
  destruct xs as [|x0 xs]; [congruence|]. intros _. unfold maxOf.
  cbn [max R_JSNum]. revert x0.
  induction xs as [|y ys IH]; intros x0; cbn [fold_left].
  - split; [now left|]. intros x [<-|[]]. lra.
  - destruct (IH (Rmax x0 y)) as [I1 I2]. split.
    + destruct I1 as [E|I1]; [|right; now right].
      rewrite <- E. unfold Rmax. destruct (Rle_dec x0 y);
        [right; now left|now left].
    + intros x [<-|[<-|Hx]].
      * apply Rle_trans with (Rmax x0 y); [apply Rmax_l|].
        apply I2. now left.
      * apply Rle_trans with (Rmax x0 y); [apply Rmax_r|].
        apply I2. now left.
      * apply I2. now right.
Qed.

Lemma validTensionOf_spec (log : list (LogEntry R)) (x : R) :
  In x (validTensionOf log)
  <-> exists l, In l log /\ l_shoulderTension l = x /\ 0 < x.
Proof.
  unfold validTensionOf. rewrite in_map_iff. split.
  - intros (l & <- & Hl). apply filter_In in Hl. destruct Hl as [Hin Hpos].
    exists l. split; [exact Hin|]. split; [reflexivity|].
    cbn [ltb lit R_JSNum] in Hpos. apply ltb_lt in Hpos.
    unfold Q2R in Hpos. cbn in Hpos. lra.
  - intros (l & Hin & <- & Hpos). exists l. split; [reflexivity|].
    apply filter_In. split; [exact Hin|].
    cbn [ltb lit R_JSNum]. apply ltb_lt. unfold Q2R. cbn. lra.
Qed.

(** X21. The largest tension of the report is at least the tension of
    every entry, and it is 0 when no entry has a positive tension, in
    which case the shoulder status is [good].  The shoulder status is
    [bad] exactly when some entry has a tension above 25. *)
Theorem report_tension (log : list (LogEntry R)) :
  log <> [] ->
  exists r : Report R,
    showDiagnoseReport log = Shown r
    /\ (forall l, In l log -> l_shoulderTension l <= maxTension r)
    /\ 0 <= maxTension r
    /\ ((forall l, In l log -> l_shoulderTension l <= 0) ->
          maxTension r = 0 /\ avgTension r = 0 /\ shoulderStatus r = good)
    /\ (shoulderStatus r = bad
        <-> exists l, In l log /\ 25 < l_shoulderTension l).
Proof.
  intros Hne.
  destruct (showDiagnoseReport_fields log Hne)
    as (r & Hr & _ & _ & _ & Hmax & Havg & Hst & _).
  exists r. split; [exact Hr|].
  assert (Hcases :
    (validTensionOf log = [] /\ maxTension r = 0 /\ avgTension r = 0)
    \/ (validTensionOf log <> []
        /\ maxTension r = maxOf (validTensionOf log))).
  { destruct (validTensionOf log) eqn:E; [left; now repeat split|].
    right. split; [discriminate|exact Hmax]. }
  assert (Hnone : validTensionOf log = [] ->
                  forall l, In l log -> l_shoulderTension l <= 0).
  { intros E l Hl. destruct (Rle_dec (l_shoulderTension l) 0); [assumption|].
    assert (In (l_shoulderTension l) (validTensionOf log))
      by (apply validTensionOf_spec; exists l; repeat split; auto; lra).
    rewrite E in H. destruct H. }
  assert (Hge : forall l, In l log -> l_shoulderTension l <= maxTension r).
  { intros l Hl. destruct Hcases as [(E & M & _)|(E & M)].
    - rewrite M. now apply Hnone.
    - rewrite M. destruct (maxOf_spec _ E) as [Hin Hub].
      destruct (Rle_dec (l_shoulderTension l) 0) as [H0|H0].
      + apply validTensionOf_spec in Hin. destruct Hin as (_ & _ & _ & Hp).
        lra.
      + apply Hub, validTensionOf_spec. exists l. repeat split; auto. lra. }
  assert (Hpos : 0 <= maxTension r).
  { destruct Hcases as [(_ & M & _)|(E & M)]; [lra|].
    rewrite M. destruct (maxOf_spec _ E) as [Hin _].
    apply validTensionOf_spec in Hin. destruct Hin as (_ & _ & _ & Hp). lra. }
  split; [exact Hge|]. split; [exact Hpos|]. split.
  - intros Hall.
    assert (E : validTensionOf log = []).
    { destruct (validTensionOf log) as [|x xs] eqn:E; [reflexivity|].
      assert (Hx : In x (validTensionOf log)) by (rewrite E; now left).
      apply validTensionOf_spec in Hx. destruct Hx as (l & Hl & <- & Hp).
      specialize (Hall l Hl). lra. }
    destruct Hcases as [(_ & M & A)|(E' & _)]; [|congruence].
    rewrite Hst, M, A.
    destruct (Rlt_dec 25 0); [lra|]. destruct (Rlt_dec 15 0); [lra|].
    now repeat split.
  - rewrite Hst. split.
    + destruct (Rlt_dec 25 (maxTension r)) as [H25|H25].
      * intros _. destruct Hcases as [(_ & M & _)|(E & M)]; [lra|].
        destruct (maxOf_spec _ E) as [Hin _]. rewrite <- M in Hin.
        apply validTensionOf_spec in Hin. destruct Hin as (l & Hl & El & _).
        exists l. split; [exact Hl|]. lra.
      * destruct (Rlt_dec 15 _); discriminate.
    + intros (l & Hl & H25). specialize (Hge l Hl).
      destruct (Rlt_dec 25 (maxTension r)); [reflexivity|lra].
Qed.

Lemma mean_bounds (lo hi : R) (xs : list R) :
  xs <> [] -> (forall x, In x xs -> lo <= x <= hi) ->
  lo <= App.sum xs / INR (List.length xs) <= hi.
Proof.
  intros Hne Hall. rewrite sum_total.
  assert (Hn : 0 < INR (List.length xs)).
  { destruct xs; [congruence|]. apply lt_0_INR. cbn. lia. }
  assert (Hs : INR (List.length xs) * lo <= fold_right Rplus 0 xs
               <= INR (List.length xs) * hi).
  { clear Hne Hn. induction xs as [|x xs IH]; [cbn; lra|].
    change (List.length (x :: xs)) with (S (List.length xs)).
    rewrite S_INR. cbn [fold_right].
    specialize (IH (fun y Hy => Hall y (or_intror Hy))).
    specialize (Hall x (or_introl eq_refl)). lra. }
  assert (Hinv : 0 < / INR (List.length xs)) by now apply Rinv_0_lt_compat.
  unfold Rdiv. split.
  - apply (Rmult_le_reg_r (INR (List.length xs))); [exact Hn|].
    rewrite Rmult_assoc, Rinv_l by lra. lra.
  - apply (Rmult_le_reg_r (INR (List.length xs))); [exact Hn|].
    rewrite Rmult_assoc, Rinv_l by lra. lra.
Qed.

Lemma validStraightnessOf_spec (log : list (LogEntry R)) (x : R) :
  In x (validStraightnessOf log)
  -> exists l, In l log /\ l_straightness l = Some x.
Proof.
  induction log as [|l log IH]; cbn [validStraightnessOf]; [intros []|].
  destruct (l_straightness l) as [s|] eqn:E.
  - intros [<-|H]; [exists l; split; [now left|exact E]|].
    destruct (IH H) as (l' & Hl' & E'). exists l'. split; [now right|exact E'].
  - intros H. destruct (IH H) as (l' & Hl' & E').
    exists l'. split; [now right|exact E'].
Qed.

(** X22. With straightness scores between 0 and 100 in the log, the
    overall score of the report lies between 19 and 95, so it never
    reaches 100; when no entry has a straightness score it lies between
    31 and 92. *)
Theorem report_overall_range (log : list (LogEntry R)) :
  log <> [] ->
  (forall l s, In l log -> l_straightness l = Some s -> 0 <= s <= 100) ->
  exists r : Report R,
    showDiagnoseReport log = Shown r
    /\ 19 <= overall r <= 95
    /\ ((forall l, In l log -> l_straightness l = None) ->
          31 <= overall r <= 92).
Proof.
  intros Hne Hrange.
  destruct (showDiagnoseReport_fields log Hne)
    as (r & Hr & _ & _ & _ & _ & _ & _ & _ & _ & _ & Havg).
  destruct (showDiagnoseReport_overall_field log Hne) as (r' & Hr' & Hov).
  assert (r' = r) by congruence. subst r'.
  exists r. split; [exact Hr|]. cbv zeta in Hov.
  assert (He : 30 <= channelScore 90 60 30 (elbowStatus r) <= 90)
    by (destruct (elbowStatus r); cbn; lra).
  assert (Hs : 30 <= channelScore 95 60 30 (shoulderStatus r) <= 95)
    by (destruct (shoulderStatus r); cbn; lra).
  assert (Hd : 35 <= channelScore 90 65 35 (distStatus r) <= 90)
    by (destruct (distStatus r); cbn; lra).
  set (e := channelScore 90 60 30 (elbowStatus r)) in *.
  set (s := channelScore 95 60 30 (shoulderStatus r)) in *.
  set (d := channelScore 90 65 35 (distStatus r)) in *.
  assert (Hnone : 31 <= Real.round ((2 * e + 2 * s + 1 * d) / (2 + 2 + 1))
                  <= 92).
  { split; [apply (round_ge_int _ 31)|apply (round_le_int _ 92)]; lra. }
  split.
  - rewrite Hov. destruct (avgStraightness r) as [a|] eqn:Ea; [|lra].
    assert (Ha : 0 <= a <= 100).
    { destruct (validStraightnessOf log) as [|v vs] eqn:Ev; [discriminate|].
      assert (Ha' : a = Real.round (App.sum (v :: vs)
                                     / INR (List.length (v :: vs))))
        by congruence.
      rewrite Ha'. apply round_clamped.
      apply mean_bounds; [discriminate|].
      intros x Hx. rewrite <- Ev in Hx.
      apply validStraightnessOf_spec in Hx. destruct Hx as (l & Hl & El).
      now apply (Hrange l x). }
    split; [apply (round_ge_int _ 19)|apply (round_le_int _ 95)]; lra.
  - intros Hall. apply validStraightnessOf_nil in Hall.
    rewrite Hall in Havg. rewrite Hov, Havg. exact Hnone.
Qed.

End ReportOverReals.

(** ** The detection loop and the drawing, over the real numbers *)

Section LoopOverReals.

Local Open Scope list_scope.
Local Open Scope R_scope.

Import Session.

(** X23. A call of [detectLoop] changes nothing when the camera is not
    running, when the landmarker or the video is not ready, or when the
    video still shows the frame of the last call; so handing it the same
    frame twice is the same as once.  Otherwise it remembers the video
    time, and the metric state is the one [processFrame] gives for the
    first pose, or the old one when no pose was found. *)
Theorem detectLoop_once (f : Frame R) (g : Globals R) :
  detectLoop f (detectLoop f g) = detectLoop f g
  /\ (isRunning g = false \/ ready f = false
      \/ videoTime f = lastVideoTime g -> detectLoop f g = g)
  /\ (isRunning g = true -> ready f = true ->
      videoTime f <> lastVideoTime g ->
      lastVideoTime (detectLoop f g) = videoTime f
      /\ state (detectLoop f g)
         = match landmarks f with
           | lm :: _ => processFrame lm (now f) (state g)
           | [] => state g
           end).
Proof.
  assert (Hskip : isRunning g = false \/ ready f = false
                  \/ videoTime f = lastVideoTime g -> detectLoop f g = g).
  { intros H. unfold detectLoop.
    destruct (isRunning g); cbn [negb]; [|reflexivity].
    destruct (ready f); cbn [negb]; [|reflexivity].
    destruct H as [H|[H|H]]; try discriminate.
    cbn [eqb R_JSNum].
    destruct (Real.eqb (videoTime f) (lastVideoTime g)) eqn:E;
      [reflexivity|]. apply eqb_neq in E. contradiction. }
  assert (Hgo : isRunning g = true -> ready f = true ->
                videoTime f <> lastVideoTime g ->
                isRunning (detectLoop f g) = true
                /\ lastVideoTime (detectLoop f g) = videoTime f
                /\ state (detectLoop f g)
                   = match landmarks f with
                     | lm :: _ => processFrame lm (now f) (state g)
                     | [] => state g
                     end).
  { intros Hr Hy Hn. unfold detectLoop. rewrite Hr, Hy. cbn [negb eqb R_JSNum].
    destruct (Real.eqb (videoTime f) (lastVideoTime g)) eqn:E;
      [apply eqb_eq in E; contradiction|].
    destruct (leb _ _); cbn [isRunning lastVideoTime state];
      repeat split; reflexivity. }
  split; [|split; [exact Hskip|]].
  - destruct (isRunning g) eqn:Hr;
      [|rewrite (Hskip (or_introl eq_refl)); apply Hskip; now left].
    destruct (ready f) eqn:Hy;
      [|rewrite (Hskip (or_intror (or_introl eq_refl))); apply Hskip;
        right; now left].
    destruct (Req_dec_T (videoTime f) (lastVideoTime g)) as [He|Hn].
    + rewrite (Hskip (or_intror (or_intror He))). apply Hskip.
      right; now right.
    + destruct (Hgo eq_refl eq_refl Hn) as (_ & Hl & _).
      unfold detectLoop at 1.
      destruct (isRunning (detectLoop f g)); cbn [negb]; [|reflexivity].
      rewrite Hy. cbn [negb eqb R_JSNum]. rewrite Hl.
      destruct (Real.eqb (videoTime f) (videoTime f)) eqn:E; [reflexivity|].
      apply eqb_neq in E. congruence.
  - intros Hr Hy Hn. destruct (Hgo Hr Hy Hn) as (_ & H1 & H2). now split.
Qed.

Lemma lit_nat (k : Z) : lit (T := R) (inject_Z k) = IZR k.
Proof. cbn [lit R_JSNum]. unfold Q2R, inject_Z. cbn [Qnum Qden]. lra. Qed.

Lemma trailSegment_real (w h : R) (n i : nat) (s : Status)
    (prev cur : TrailSample R) :
  seg_alpha (trailSegment w h n s i prev cur) = alphaAt n i
  /\ seg_width (trailSegment w h n s i prev cur) = widthAt n i
  /\ seg_rgb (trailSegment w h n s i prev cur)
     = match s with
       | good => (46, 204, 113)%Z
       | warn => (241, 196, 15)%Z
       | bad => (231, 76, 60)%Z
       end.
Proof.
  unfold trailSegment, alphaAt, widthAt. cbn [seg_alpha seg_width seg_rgb].
  rewrite !lit_nat, minus_IZR, <- !INR_IZR_INZ. at_reals.
  repeat split; lra.
Qed.

Lemma alphaAt_range (n i : nat) :
  (1 <= i < n)%nat ->
  0.16 < alphaAt n i < 0.8 /\ 1.2 < widthAt n i < 3
  /\ ((S i < n)%nat -> alphaAt n i < alphaAt n (S i)).
Proof.
  intros [H1 H2]. unfold alphaAt, widthAt.
  assert (Hn : 0 < INR n) by (apply lt_0_INR; lia).
  assert (Hi : 1 <= INR i) by (change 1 with (INR 1); apply le_INR; lia).
  assert (Hin : INR i < INR n) by (apply lt_INR; lia).
  assert (Hinv : 0 < / INR n) by now apply Rinv_0_lt_compat.
  set (age := (INR n - INR i) / INR n).
  assert (Hage : 0 < age < 1).
  { subst age. split.
    - apply Rmult_lt_0_compat; lra.
    - apply (Rmult_lt_reg_r (INR n)); [exact Hn|].
      unfold Rdiv. rewrite Rmult_assoc, Rinv_l by lra. lra. }
  split; [lra|]. split; [lra|].
  intros _. rewrite S_INR.
  assert (Hstep : (INR n - (INR i + 1)) / INR n < age).
  { subst age. unfold Rdiv. apply Rmult_lt_compat_r; lra. }
  lra.
Qed.

Lemma trailLoop_spec (w h : R) (n : nat) (s : Status)
    (rest : list (TrailSample R)) :
  forall (i : nat) (prev : TrailSample R),
    (1 <= i)%nat -> (i + List.length rest = n)%nat ->
    let segs := trailLoop w h n s i prev rest in
    List.length segs = List.length rest
    /\ Forall (fun g => 0.16 < seg_alpha g < 0.8 /\ 1.2 < seg_width g < 3
                        /\ seg_rgb g = match s with
                                       | good => (46, 204, 113)%Z
                                       | warn => (241, 196, 15)%Z
                                       | bad => (231, 76, 60)%Z
                                       end) segs
    /\ ascending (List.map seg_alpha segs)
    /\ (forall g segs', segs = g :: segs' -> seg_alpha g = alphaAt n i).
Proof.
  induction rest as [|cur rest IH]; intros i prev Hi Hn; cbn zeta.
  - cbn. repeat split; [constructor|]. intros ? ? [=].
  - cbn [trailLoop List.length] in *.
    destruct (IH (S i) cur ltac:(lia) ltac:(lia)) as (I1 & I2 & I3 & I4).
    destruct (trailSegment_real w h n i s prev cur) as (A & W & C).
    destruct (alphaAt_range n i ltac:(lia)) as (RA & RW & Hinc).
    split; [now rewrite I1|]. split; [|split].
    + constructor; [|exact I2]. rewrite A, W, C. repeat split; lra.
    + cbn [List.map].
      destruct (trailLoop w h n s (S i) cur rest) as [|g' segs'] eqn:E;
        [cbn [List.map ascending]; exact I|].
      cbn [List.map ascending] in *. split; [|exact I3].
      rewrite A, (I4 g' segs' eq_refl). apply Hinc.
      destruct rest; [discriminate|]. cbn [List.length] in Hn. lia.
    + intros g segs' [= <- _]. exact A.
Qed.

(** X24. [drawBowTrail] draws nothing for a trail of fewer than 2 samples
    and otherwise one segment for each sample after the first, in the
    colour of the straightness status; every segment has an opacity
    between 0.16 and 0.8 and a width between 1.2 and 3, and each segment
    is more opaque than the one before it. *)
Theorem drawBowTrail_segments (w h : R) (s : State R) :
  let segs := drawBowTrail w h s in
  List.length segs = Nat.pred (List.length (wristTrail s))
  /\ ((List.length (wristTrail s) < 2)%nat -> segs = [])
  /\ Forall (fun g => 0.16 < seg_alpha g < 0.8 /\ 1.2 < seg_width g < 3) segs
  /\ ascending (List.map seg_alpha segs)
  /\ (forall g, In g segs ->
        seg_rgb g = match straightness (currentMetrics s) with
                    | Some st =>
                        match st_status st with
                        | good => (46, 204, 113)%Z
                        | warn => (241, 196, 15)%Z
                        | bad => (231, 76, 60)%Z
                        end
                    | None => (46, 204, 113)%Z
                    end).
Proof.
  cbn zeta. unfold drawBowTrail.
  destruct (Nat.ltb (List.length (wristTrail s)) 2) eqn:E.
  - apply Nat.ltb_lt in E. repeat split; try constructor.
    + destruct (wristTrail s) as [|a [|b l]]; cbn in *; lia.
    + intros g [].
  - apply Nat.ltb_ge in E.
    destruct (wristTrail s) as [|first rest] eqn:Et; [cbn in E; lia|].
    set (status := match straightness (currentMetrics s) with
                   | Some st => st_status st | None => good end).
    destruct (trailLoop_spec w h (List.length (first :: rest)) status rest
                1%nat first) as (L1 & L2 & L3 & _); [lia|reflexivity|].
    split; [exact L1|]. split; [intros H; exfalso; lia|].
    split; [eapply Forall_impl; [|exact L2]; cbv beta; tauto|].
    split; [exact L3|].
    intros g Hg. rewrite Forall_forall in L2.
    destruct (L2 g Hg) as (_ & _ & C). rewrite C. subst status.
    destruct (straightness (currentMetrics s)); reflexivity.
Qed.

End LoopOverReals.

(** ** Instances of the further properties *)

Section MoreInstances.

Local Open Scope string_scope.
Local Open Scope list_scope.
Local Open Scope R_scope.






(** X9 at the counters 1, 2, 3. *)
Lemma computeDistributionPercent_bounds_witness :
  -1 <= d_middle (computeDistributionPercent
                    {| c_tip := 1; c_middle := 2; c_frog := 3 |}) <= 100.
Proof.
  assert (H0 : (0 <= 1)%Z) by lia. assert (H1 : (0 <= 2)%Z) by lia.
  assert (H2 : (0 <= 3)%Z) by lia. assert (H3 : (1 + 2 + 3 <> 0)%Z) by lia.
  exact (proj1 (proj2 (proj2
           (computeDistributionPercent_bounds 1 2 3 H0 H1 H2 H3)))).
Defined.




(** X13 at one frame from the initial state. *)
Lemma wristTrail_window_witness :
  (List.length (wristTrail (processFrames [(RealSamples.pose, 0%R)]
                              (initialState (T := R)))) <= 60)%nat.
Proof.
  assert (H : (List.length (wristTrail (initialState (T := R))) <= 60)%nat)
    by (cbn; lia).
  exact (proj2 (proj2 (proj2
           (wristTrail_window RealSamples.pose 0 initialState
              [(RealSamples.pose, 0%R)] H)))).
Defined.

(** X14 at one frame from the initial state. *)
Lemma straightness_warmup_witness :
  smoothStraightness (processFrames [(RealSamples.pose, 0%R)]
                        (initialState (T := R))) = None.
Proof.
  assert (H : (List.length (wristTrail (initialState (T := R)))
               + List.length [(RealSamples.pose, 0%R)] < 10)%nat)
    by (cbn; lia).
  exact (proj1 (straightness_warmup [(RealSamples.pose, 0%R)]
                  initialState H)).
Defined.

(** X15 at one frame from the initial state. *)
Lemma advice_before_calibration_witness :
  adviceShown (processFrame RealSamples.pose 0 initialState)
  <> adviceShoulderBad
  /\ baseShoulderEarDist (initialState (T := R)) = None.
Proof.
  split; [|reflexivity].
  exact (proj1 (proj2 (advice_before_calibration RealSamples.pose 0
                         initialState eq_refl))).
Defined.



(** X17 at a capture started while the camera runs. *)
Lemma diagnose_session_witness :
  capturing 15 (Session.startDiagnose true 0 (RealSamples.frame 0) 0
                  RealSamples.running)
  /\ Session.isRunning RealSamples.running = true
  /\ Session.diagnoseTimer RealSamples.running = None.
Proof.
  split; [|split; reflexivity].
  exact (proj1 (proj2 (diagnose_session true 0 0 (RealSamples.frame 0)
                         RealSamples.running [] [] eq_refl eq_refl))).
Defined.

Lemma two_entries : [Samples.entryGood; Samples.entryTense] <> [].
Proof. discriminate. Qed.


Lemma fifteen_low :
  forall l, In l (repeat Samples.entryTense 15) -> l_elbowHeight l = 0.6.
Proof. intros l Hl. apply repeat_spec in Hl. now subst. Qed.

(** X20 at 15 entries with the elbow at 0.6. *)
Lemma report_uniform_elbow_witness :
  exists r : Report R,
    showDiagnoseReport (repeat Samples.entryTense 15) = Shown r
    /\ elbowStatus r = bad /\ elbowLabel r = "低すぎ".
Proof.
  assert (Hne : repeat Samples.entryTense 15 <> []) by discriminate.
  destruct (report_uniform_elbow 0.6 _ Hne fifteen_low)
    as (r & Hr & _ & _ & Hbad).
  exists r. split; [exact Hr|]. apply Hbad. lra.
Defined.

(** X21 at the log of two entries, one with tension 30. *)
Lemma report_tension_witness :
  exists r : Report R,
    showDiagnoseReport [Samples.entryGood; Samples.entryTense] = Shown r
    /\ shoulderStatus r = bad.
Proof.
  destruct (report_tension _ two_entries) as (r & Hr & _ & _ & _ & Hbad).
  exists r. split; [exact Hr|]. apply Hbad.
  exists Samples.entryTense. split; [right; now left|].
  unfold Samples.entryTense. cbn [l_shoulderTension]. lra.
Defined.

Lemma two_entries_scores :
  forall l s, In l [Samples.entryGood; Samples.entryTense] ->
              l_straightness l = Some s -> 0 <= s <= 100.
Proof.
  intros l s [<-|[<-|[]]]; cbn [Samples.entryGood Samples.entryTense
                                l_straightness]; intros [= <-]; lra.
Qed.

(** X22 at the log of two entries. *)
Lemma report_overall_range_witness :
  exists r : Report R,
    showDiagnoseReport [Samples.entryGood; Samples.entryTense] = Shown r
    /\ 19 <= overall r <= 95.
Proof.
  destruct (report_overall_range _ two_entries two_entries_scores)
    as (r & Hr & Hrange & _).
  exists r. split; [exact Hr|exact Hrange].
Defined.

End MoreInstances.

(** ** A session on binary64 numbers *)

(** Twelve frames, a calibration and a capture of ten frames over its 15
    seconds, run on binary64 numbers: the capture logs its ten frames and
    ends by showing a report with the overall score 88. *)
Example session_on_floats :
  List.length (diagnoseLog (Session.state FloatSamples.session)) = 10%nat
  /\ diagnosing (Session.state FloatSamples.session) = false
  /\ Session.diagnoseTimer FloatSamples.session = None
  /\ option_map
       (fun v => match v with
                 | Shown r => Some (overall r, overallStatus r, frogPct r,
                                    avgStraightness r, maxTension r)
                 | NoPoseDetected => None
                 end)
       (Session.modal FloatSamples.session)
     = Some (Some (88%float, good, 100%float, Some 100%float, 0%float)).
Proof. vm_compute. repeat split. Qed.
